(** * Decoder for Windows ACL / ACE binary structures

    A shallow embedding of [bonsai/active_directory/acl.py]: the enumerations
    [ACEFlag], [ACEType], [ACERight] and [ACLRevision], the class [ACE] with
    its [from_binary] class method and [rights] property, and the class [ACL]
    with its [from_binary] class method.

    Python integers are [Z], [bytes] values are lists of [byte], sets are
    [gset], and a raised exception is the [Raise] branch of [result]. *)

From Stdlib Require Import ZArith List Lia String.
From Stdlib Require Import Strings.Byte.
From stdpp Require Import base gmap list strings pretty countable.

Open Scope Z_scope.

(** ** Python values, exceptions and results *)

Definition bytes := list byte.

Definition byte_val (b : byte) : Z := Z.of_N (Byte.to_N b).

(** The values an argument of [from_binary] may be: only [PyBytes] passes
    [isinstance(data, bytes)]. *)
Inductive pyobj :=
| PyNone
| PyBool (b : bool)
| PyInt (z : Z)
| PyStr (s : string)
| PyBytes (b : bytes)
| PyByteArray (b : bytes).

Inductive exn_class :=
| TypeError
| ValueError
| StructError
| OtherError (name : string).

Record exn := Exn { exn_kind : exn_class; exn_msg : string }.

Inductive result (A : Type) :=
| OK (a : A)
| Raise (e : exn).
Arguments OK {A} a.
Arguments Raise {A} e.

Global Instance result_ret : MRet result := λ A a, OK a.
Global Instance result_bind : MBind result := λ A B f m,
  match m with
  | OK a => f a
  | Raise e => Raise e
  end.

(** [try: body except struct.error as err: raise ValueError(prefix.format(err))] *)
Definition except_struct_error {A} (prefix : string) (body : result A) : result A :=
  match body with
  | Raise (Exn StructError msg) => Raise (Exn ValueError (prefix +:+ msg))
  | other => other
  end.

(** ** Slices of [bytes]

    [data[lo:hi]] with Python's clamping of the bounds; a missing bound is
    [None]. *)

Definition clamp (len i : Z) : Z :=
  if i <? 0 then Z.max 0 (len + i) else Z.min i len.

Definition slice (lo hi : option Z) (data : bytes) : bytes :=
  let len := Z.of_nat (length data) in
  let l := from_option (clamp len) 0 lo in
  let h := from_option (clamp len) len hi in
  drop (Z.to_nat l) (take (Z.to_nat h) data).

(** ** The [struct] module, for the four formats the decoder uses *)

Module pystruct.

Fixpoint le_int (b : bytes) : Z :=
  match b with
  | [] => 0
  | x :: r => byte_val x + 256 * le_int r
  end.

Definition be_int (b : bytes) : Z := le_int (rev b).

(** [struct.error("unpack requires a buffer of n bytes")] *)
Definition error (n : Z) : exn :=
  Exn StructError ("unpack requires a buffer of " +:+ pretty n +:+ " bytes").

(** [struct.unpack("<BBH", buf)] *)
Definition unpack_BBH (buf : bytes) : result (Z * Z * Z) :=
  match buf with
  | [b0; b1; b2; b3] => OK (byte_val b0, byte_val b1, le_int [b2; b3])
  | _ => Raise (error 4)
  end.

(** [struct.unpack(">L", buf)[0]] *)
Definition unpack_L_be (buf : bytes) : result Z :=
  match buf with
  | [_; _; _; _] => OK (be_int buf)
  | _ => Raise (error 4)
  end.

(** [struct.unpack("<I", buf)[0]] *)
Definition unpack_I_le (buf : bytes) : result Z :=
  match buf with
  | [_; _; _; _] => OK (le_int buf)
  | _ => Raise (error 4)
  end.

(** [struct.unpack("<BBHHH", buf)] *)
Definition unpack_BBHHH (buf : bytes) : result (Z * Z * Z * Z * Z) :=
  match buf with
  | [b0; b1; b2; b3; b4; b5; b6; b7] =>
      OK (byte_val b0, byte_val b1, le_int [b2; b3], le_int [b4; b5], le_int [b6; b7])
  | _ => Raise (error 8)
  end.

End pystruct.

(** ** [uuid.UUID(bytes_le=...)] of the Python standard library

    A UUID is its 128-bit integer; [bytes_le] has the first three fields
    little-endian, and any length other than 16 raises [ValueError]. *)

Record UUID := mkUUID { uuid_int : Z }.

Definition UUID_bytes_le (bytes_le : bytes) : result UUID :=
  if bool_decide (length bytes_le = 16%nat) then
    OK (mkUUID (pystruct.be_int
                  (rev (take 4 bytes_le) ++ rev (take 2 (drop 4 bytes_le))
                   ++ rev (take 2 (drop 6 bytes_le)) ++ drop 8 bytes_le)))
  else Raise (Exn ValueError "bytes_le is not a 16-char string").

(** ** The enumerations *)

(** Calling an [IntEnum] class on an integer: the member with that value, or
    [ValueError("<v> is not a valid <name>")]. *)
Definition enum_call {E} (name : string) (value : E → Z) (members : list E)
    (v : Z) : result E :=
  match List.find (λ e, value e =? v) members with
  | Some e => OK e
  | None => Raise (Exn ValueError (pretty v +:+ " is not a valid " +:+ name))
  end.

Definition enum_of_value {E} (value : E → Z) (members : list E) (v : Z) : option E :=
  List.find (λ e, value e =? v) members.

Inductive ACEFlag :=
| OBJECT_INHERIT
| CONTAINER_INHERIT
| NO_PROPAGATE_INHERIT
| INHERIT_ONLY
| INHERITED
| SUCCESSFUL_ACCESS
| FAILED_ACCESS.

Definition ACEFlag_value (f : ACEFlag) : Z :=
  match f with
  | OBJECT_INHERIT => 0x01
  | CONTAINER_INHERIT => 0x02
  | NO_PROPAGATE_INHERIT => 0x04
  | INHERIT_ONLY => 0x08
  | INHERITED => 0x10
  | SUCCESSFUL_ACCESS => 0x40
  | FAILED_ACCESS => 0x80
  end.

Definition ACEFlag_members : list ACEFlag :=
  [OBJECT_INHERIT; CONTAINER_INHERIT; NO_PROPAGATE_INHERIT; INHERIT_ONLY;
   INHERITED; SUCCESSFUL_ACCESS; FAILED_ACCESS].

Inductive ACEType :=
| ACCESS_ALLOWED
| ACCESS_DENIED
| SYSTEM_AUDIT
| SYSTEM_ALARM
| ACCESS_ALLOWED_COMPOUND
| ACCESS_ALLOWED_OBJECT
| ACCESS_DENIED_OBJECT
| SYSTEM_AUDIT_OBJECT
| SYSTEM_ALARM_OBJECT
| ACCESS_ALLOWED_CALLBACK
| ACCESS_DENIED_CALLBACK
| ACCESS_ALLOWED_CALLBACK_OBJECT
| ACCESS_DENIED_CALLBACK_OBJECT
| SYSTEM_AUDIT_CALLBACK
| SYSTEM_ALARM_CALLBACK
| SYSTEM_AUDIT_CALLBACK_OBJECT
| SYSTEM_ALARM_CALLBACK_OBJECT
| SYSTEM_MANDATORY_LABEL
| SYSTEM_RESOURCE_ATTRIBUTE
| SYSTEM_SCOPED_POLICY_ID.

Definition ACEType_value (t : ACEType) : Z :=
  match t with
  | ACCESS_ALLOWED => 0
  | ACCESS_DENIED => 1
  | SYSTEM_AUDIT => 2
  | SYSTEM_ALARM => 3
  | ACCESS_ALLOWED_COMPOUND => 4
  | ACCESS_ALLOWED_OBJECT => 5
  | ACCESS_DENIED_OBJECT => 6
  | SYSTEM_AUDIT_OBJECT => 7
  | SYSTEM_ALARM_OBJECT => 8
  | ACCESS_ALLOWED_CALLBACK => 9
  | ACCESS_DENIED_CALLBACK => 10
  | ACCESS_ALLOWED_CALLBACK_OBJECT => 11
  | ACCESS_DENIED_CALLBACK_OBJECT => 12
  | SYSTEM_AUDIT_CALLBACK => 13
  | SYSTEM_ALARM_CALLBACK => 14
  | SYSTEM_AUDIT_CALLBACK_OBJECT => 15
  | SYSTEM_ALARM_CALLBACK_OBJECT => 16
  | SYSTEM_MANDATORY_LABEL => 17
  | SYSTEM_RESOURCE_ATTRIBUTE => 18
  | SYSTEM_SCOPED_POLICY_ID => 19
  end.

Definition ACEType_members : list ACEType :=
  [ACCESS_ALLOWED; ACCESS_DENIED; SYSTEM_AUDIT; SYSTEM_ALARM;
   ACCESS_ALLOWED_COMPOUND; ACCESS_ALLOWED_OBJECT; ACCESS_DENIED_OBJECT;
   SYSTEM_AUDIT_OBJECT; SYSTEM_ALARM_OBJECT; ACCESS_ALLOWED_CALLBACK;
   ACCESS_DENIED_CALLBACK; ACCESS_ALLOWED_CALLBACK_OBJECT;
   ACCESS_DENIED_CALLBACK_OBJECT; SYSTEM_AUDIT_CALLBACK; SYSTEM_ALARM_CALLBACK;
   SYSTEM_AUDIT_CALLBACK_OBJECT; SYSTEM_ALARM_CALLBACK_OBJECT;
   SYSTEM_MANDATORY_LABEL; SYSTEM_RESOURCE_ATTRIBUTE; SYSTEM_SCOPED_POLICY_ID].

(** [ACEType(v)] *)
Definition ACEType_call (v : Z) : result ACEType :=
  enum_call "ACEType" ACEType_value ACEType_members v.

Inductive ACERight :=
| GENERIC_READ
| GENERIC_WRITE
| GENERIC_EXECUTE
| GENERIC_ALL
| MAXIMUM_ALLOWED
| ACCESS_SYSTEM_SECURITY
| SYNCHRONIZE
| WRITE_OWNER
| WRITE_DACL
| READ_CONTROL
| DELETE
| DS_CONTROL_ACCESS
| DS_CREATE_CHILD
| DS_DELETE_CHILD
| ACTRL_DS_LIST
| DS_SELF
| DS_READ_PROP
| DS_WRITE_PROP
| DS_DELETE_TREE
| DS_LIST_OBJECT.

Definition ACERight_value (r : ACERight) : Z :=
  match r with
  | GENERIC_READ => 0x80000000
  | GENERIC_WRITE => 0x4000000
  | GENERIC_EXECUTE => 0x20000000
  | GENERIC_ALL => 0x10000000
  | MAXIMUM_ALLOWED => 0x02000000
  | ACCESS_SYSTEM_SECURITY => 0x01000000
  | SYNCHRONIZE => 0x00100000
  | WRITE_OWNER => 0x00080000
  | WRITE_DACL => 0x00040000
  | READ_CONTROL => 0x00020000
  | DELETE => 0x00010000
  | DS_CONTROL_ACCESS => 0x00000100
  | DS_CREATE_CHILD => 0x00000001
  | DS_DELETE_CHILD => 0x00000002
  | ACTRL_DS_LIST => 0x00000004
  | DS_SELF => 0x00000008
  | DS_READ_PROP => 0x00000010
  | DS_WRITE_PROP => 0x00000020
  | DS_DELETE_TREE => 0x00000040
  | DS_LIST_OBJECT => 0x00000080
  end.

Definition ACERight_members : list ACERight :=
  [GENERIC_READ; GENERIC_WRITE; GENERIC_EXECUTE; GENERIC_ALL; MAXIMUM_ALLOWED;
   ACCESS_SYSTEM_SECURITY; SYNCHRONIZE; WRITE_OWNER; WRITE_DACL; READ_CONTROL;
   DELETE; DS_CONTROL_ACCESS; DS_CREATE_CHILD; DS_DELETE_CHILD; ACTRL_DS_LIST;
   DS_SELF; DS_READ_PROP; DS_WRITE_PROP; DS_DELETE_TREE; DS_LIST_OBJECT].

Inductive ACLRevision :=
| ACL_REVISION
| ACL_REVISION_DS.

Definition ACLRevision_value (r : ACLRevision) : Z :=
  match r with
  | ACL_REVISION => 0x02
  | ACL_REVISION_DS => 0x04
  end.

Definition ACLRevision_members : list ACLRevision := [ACL_REVISION; ACL_REVISION_DS].

(** [ACLRevision(v)] *)
Definition ACLRevision_call (v : Z) : result ACLRevision :=
  enum_call "ACLRevision" ACLRevision_value ACLRevision_members v.

Global Instance ACEFlag_eq_dec : EqDecision ACEFlag.
Proof. solve_decision. Defined.
Global Instance ACEType_eq_dec : EqDecision ACEType.
Proof. solve_decision. Defined.
Global Instance ACERight_eq_dec : EqDecision ACERight.
Proof. solve_decision. Defined.
Global Instance ACLRevision_eq_dec : EqDecision ACLRevision.
Proof. solve_decision. Defined.

Global Instance ACEFlag_countable : Countable ACEFlag.
Proof.
  apply (inj_countable ACEFlag_value (enum_of_value ACEFlag_value ACEFlag_members)).
  intros []; reflexivity.
Defined.

Global Instance ACERight_countable : Countable ACERight.
Proof.
  apply (inj_countable ACERight_value (enum_of_value ACERight_value ACERight_members)).
  intros []; reflexivity.
Defined.

(** ** The trustee identifier

    [ACE.from_binary] builds the trustee with [SID(bytes_le=...)] and reads
    [len(trustee_sid.subauthorities)]; the decoder is stated over any class
    with that interface. *)

Class SIDLike (S : Type) := {
  SID_bytes_le : bytes → result S;
  SID_subauthorities : S → list Z;
}.

(** ** class ACE *)

Module ACE.

Record t (S : Type) := mk {
  type : ACEType;
  flags : gset ACEFlag;
  mask : Z;
  object_type : option UUID;
  inherited_object_type : option UUID;
  trustee_sid : S;
  application_data : option bytes;
  size : Z;
}.
Arguments mk {S}.
Arguments type {S}.
Arguments flags {S}.
Arguments mask {S}.
Arguments object_type {S}.
Arguments inherited_object_type {S}.
Arguments trustee_sid {S}.
Arguments application_data {S}.
Arguments size {S}.

(** [ACE.__init__]: the size starts at 0. *)
Definition init {S} (ace_type : ACEType) (flags : gset ACEFlag) (mask : Z)
    (trustee_sid : S) (object_type inherited_object_type : option UUID)
    (application_data : option bytes) : t S :=
  mk ace_type flags mask object_type inherited_object_type trustee_sid
     application_data 0.

(** [this.__size = size] *)
Definition set_size {S} (this : t S) (size : Z) : t S :=
  mk (type this) (flags this) (mask this) (object_type this)
     (inherited_object_type this) (trustee_sid this) (application_data this) size.

(** The tuple tested at line 102. *)
Definition object_types : list ACEType :=
  [ACCESS_ALLOWED_OBJECT; ACCESS_DENIED_OBJECT; SYSTEM_AUDIT_OBJECT;
   SYSTEM_ALARM_OBJECT; ACCESS_ALLOWED_CALLBACK_OBJECT;
   ACCESS_DENIED_CALLBACK_OBJECT; SYSTEM_AUDIT_CALLBACK_OBJECT;
   SYSTEM_ALARM_CALLBACK_OBJECT].

(** The tuple tested at line 122. *)
Definition application_data_types : list ACEType :=
  [ACCESS_ALLOWED_CALLBACK; ACCESS_DENIED_CALLBACK;
   ACCESS_ALLOWED_CALLBACK_OBJECT; ACCESS_DENIED_CALLBACK_OBJECT;
   SYSTEM_AUDIT_OBJECT; SYSTEM_AUDIT_CALLBACK].

(** [{flg for flg in ACEFlag if flags & flg}] *)
Definition flag_set (flags : Z) : gset ACEFlag :=
  list_to_set (filter (λ flg, Z.land flags (ACEFlag_value flg) ≠ 0) ACEFlag_members).

Section decoder.
Context {S : Type} `{!SIDLike S}.

(** Lines 112-119: the object flags and the two optional GUIDs, from cursor
    [pos = 8]; the result is [(object_type, inherited_object_type, pos)]. *)
Definition read_object_fields (data : bytes) (pos : Z)
    : result (option UUID * option UUID * Z) :=
  obj_flag ← pystruct.unpack_I_le (slice (Some 8) (Some 12) data);
  let pos := pos + 4 in
  '(object_type, pos) ←
    (if bool_decide (Z.land obj_flag 0x00000001 ≠ 0) then
       u ← UUID_bytes_le (slice (Some pos) (Some (pos + 16)) data);
       OK (Some u, pos + 16)
     else OK (None, pos));
  '(inherited_object_type, pos) ←
    (if bool_decide (Z.land obj_flag 0x00000002 ≠ 0) then
       u ← UUID_bytes_le (slice (Some pos) (Some (pos + 16)) data);
       OK (Some u, pos + 16)
     else OK (None, pos));
  OK (object_type, inherited_object_type, pos).

(** The body of the [try] block of [ACE.from_binary]. *)
Definition from_binary_body (data : pyobj) : result (t S) :=
  data ← (if data is PyBytes b then OK b
          else Raise (Exn TypeError "The `data` parameter must be bytes"));
  '(ace_type, flags, size) ← pystruct.unpack_BBH (slice None (Some 4) data);
  mask ← pystruct.unpack_L_be (slice (Some 4) (Some 8) data);
  let pos := 8 in
  ty ← ACEType_call ace_type;
  '(object_type, inherited_object_type, pos) ←
    (if bool_decide (ty ∈ object_types) then read_object_fields data pos
     else OK (None, None, pos));
  trustee_sid ← SID_bytes_le (slice (Some pos) None data);
  let pos := pos + (8 + Z.of_nat (length (SID_subauthorities trustee_sid)) * 4) in
  ty ← ACEType_call ace_type;
  let application_data :=
    if bool_decide (ty ∈ application_data_types)
    then Some (slice (Some pos) (Some size) data) else None in
  ty ← ACEType_call ace_type;
  let this := init ty (flag_set flags) mask trustee_sid object_type
                   inherited_object_type application_data in
  OK (set_size this size).

Definition from_binary (data : pyobj) : result (t S) :=
  except_struct_error "Not a valid binary ACE, " (from_binary_body data).

End decoder.

(** [{rgt for rgt in ACERight if self.mask & rgt}] *)
Definition rights {S} (self : t S) : gset ACERight :=
  list_to_set (filter (λ rgt, Z.land (mask self) (ACERight_value rgt) ≠ 0) ACERight_members).

End ACE.

(** ** class ACL *)

Module ACL.

Record t (S : Type) := mk {
  revision : ACLRevision;
  sbz1 : Z;
  sbz2 : Z;
  aces : list (ACE.t S);
  size : Z;
}.
Arguments mk {S}.
Arguments revision {S}.
Arguments sbz1 {S}.
Arguments sbz2 {S}.
Arguments aces {S}.
Arguments size {S}.

(** [ACL.__init__]: the size starts at 0. *)
Definition init {S} (revision : ACLRevision) (aces : list (ACE.t S))
    (sbz1 sbz2 : Z) : t S :=
  mk revision sbz1 sbz2 aces 0.

(** [this.__size = size] *)
Definition set_size {S} (this : t S) (size : Z) : t S :=
  mk (revision this) (sbz1 this) (sbz2 this) (aces this) size.

Section decoder.
Context {S : Type} `{!SIDLike S}.

(** Lines 200-203: [count] iterations of the [for] loop from the state
    [(aces, start_pos)]; the result is the state after the loop. *)
Fixpoint read_aces (data : bytes) (count : nat) (aces : list (ACE.t S))
    (start_pos : Z) : result (list (ACE.t S) * Z) :=
  match count with
  | O => OK (aces, start_pos)
  | Datatypes.S count' =>
      ace ← ACE.from_binary (PyBytes (slice (Some start_pos) None data));
      read_aces data count' (aces ++ [ace]) (start_pos + ACE.size ace)
  end.

(** The body of the [try] block of [ACL.from_binary]. *)
Definition from_binary_body (data : pyobj) : result (t S) :=
  data ← (if data is PyBytes b then OK b
          else Raise (Exn TypeError "The `data` parameter must be bytes"));
  '(rev, sbz1, size, count, sbz2) ← pystruct.unpack_BBHHH (slice None (Some 8) data);
  let start_pos := 8 in
  '(aces, start_pos) ← read_aces data (Z.to_nat count) [] start_pos;
  rev ← ACLRevision_call rev;
  let this := init rev aces sbz1 sbz2 in
  OK (set_size this size).

Definition from_binary (data : pyobj) : result (t S) :=
  except_struct_error "Not a valid binary ACL, " (from_binary_body data).

End decoder.

End ACL.

(** ** A concrete trustee identifier *)

(** Modelled from the spec: the class [SID] of [bonsai/active_directory/sid.py],
    which [acl.py] imports and whose source is not part of this development.
    The spec gives it a fixed 8-byte header followed by a declared count of
    4-byte sub-elements, built from a little-endian byte slice; the header is
    taken as revision (1 byte), sub-element count (1 byte) and a 6-byte
    big-endian authority. Bytes after the last sub-element are ignored, and a
    slice too short for what it declares raises [ValueError]. *)
Module SID.

Record t := mk {
  revision : Z;
  identifier_authority : Z;
  subauthorities : list Z;
}.

Fixpoint read_subauthorities (count : nat) (b : bytes) : option (list Z) :=
  match count with
  | O => Some []
  | Datatypes.S count' =>
      match b with
      | b0 :: b1 :: b2 :: b3 :: rest =>
          subs ← read_subauthorities count' rest;
          Some (pystruct.le_int [b0; b1; b2; b3] :: subs)
      | _ => None
      end
  end.

Definition invalid : exn := Exn ValueError "Not a valid binary SID".

Definition from_bytes_le (bytes_le : bytes) : result t :=
  match bytes_le with
  | rv :: cnt :: a0 :: a1 :: a2 :: a3 :: a4 :: a5 :: rest =>
      match read_subauthorities (Z.to_nat (byte_val cnt)) rest with
      | Some subs => OK (mk (byte_val rv) (pystruct.be_int [a0; a1; a2; a3; a4; a5]) subs)
      | None => Raise invalid
      end
  | _ => Raise invalid
  end.

End SID.

Global Instance SID_SIDLike : SIDLike SID.t := {|
  SID_bytes_le := SID.from_bytes_le;
  SID_subauthorities := SID.subauthorities;
|}.

(** ** Sample buffers *)

(** The trustee S-1-5-32: revision 1, one sub-element, authority 5. *)
Definition sid_bytes : bytes :=
  [x01; x01; x00; x00; x00; x00; x00; x05; x20; x00; x00; x00].

(** An ACCESS_ALLOWED entry of declared size 20 with mask 0x001F01FF. *)
Definition allowed_ace_bytes : bytes :=
  [x00; x00; x14; x00; x00; x1f; x01; xff] ++ sid_bytes.

(** A SYSTEM_ALARM_CALLBACK entry (type 14) of declared size 24: header, mask,
    trustee, then four more bytes. *)
Definition alarm_callback_ace_bytes : bytes :=
  [x0e; x00; x18; x00; x00; x00; x00; x01] ++ sid_bytes ++ [xaa; xbb; xcc; xdd].

(** An ACCESS_ALLOWED_CALLBACK entry (type 9) of declared size 24 with the
    same layout. *)
Definition allowed_callback_ace_bytes : bytes :=
  [x09; x00; x18; x00; x00; x00; x00; x01] ++ sid_bytes ++ [xaa; xbb; xcc; xdd].



(** An ACCESS_ALLOWED_OBJECT entry (type 5) with object flags 3: both GUIDs
    are present, then the trustee. *)
Definition object_ace_bytes : bytes :=
  [x05; x00; x38; x00; x00; x00; x01; x00; x03; x00; x00; x00]
  ++ [x00; x01; x02; x03; x04; x05; x06; x07; x08; x09; x0a; x0b; x0c; x0d; x0e; x0f]
  ++ [x10; x11; x12; x13; x14; x15; x16; x17; x18; x19; x1a; x1b; x1c; x1d; x1e; x1f]
  ++ sid_bytes.

(** Four bytes whose type code is 99. *)
Definition unknown_type_short_bytes : bytes := [x63; x00; x08; x00].

(** Eight bytes whose type code is 99. *)
Definition unknown_type_bytes : bytes :=
  [x63; x00; x08; x00; x00; x00; x00; x00].

(** An entry of declared size 0 that decodes: ACCESS_ALLOWED, mask 1. *)
Definition zero_size_ace_bytes : bytes :=
  [x00; x00; x00; x00; x00; x00; x00; x01] ++ sid_bytes.

(** An ACL header (revision 2, one entry) followed by no entry at all. *)
Definition acl_missing_ace_bytes : bytes :=
  [x02; x00; x08; x00; x01; x00; x00; x00].

(** An ACL header (revision 2, no entry) followed by three stray bytes. *)
Definition acl_empty_bytes : bytes :=
  [x02; x00; x08; x00; x00; x00; x00; x00; xde; xad; xbe].

(** An ACL of revision 2 that declares three entries, the first of declared
    size 0. *)
Definition acl_zero_size_bytes : bytes :=
  [x02; x00; x1c; x00; x03; x00; x00; x00] ++ zero_size_ace_bytes.

(** The same with revision byte 0, which is no member of [ACLRevision]. *)
Definition acl_zero_size_bad_revision_bytes : bytes :=
  [x00; x00; x1c; x00; x03; x00; x00; x00] ++ zero_size_ace_bytes.

(** An ACCESS_ALLOWED entry with flag byte 0x11. *)
Definition inherited_ace_bytes : bytes :=
  [x00; x11; x14; x00; x00; x1f; x01; xff] ++ sid_bytes.

(** An ACL of revision 4 with two declared entries: [allowed_ace_bytes], then
    eight bytes whose type code is 99. *)
Definition acl_second_ace_bad_bytes : bytes :=
  [x04; x00; x24; x00; x02; x00; x00; x00] ++ allowed_ace_bytes ++ unknown_type_bytes.

(** The decoded values of the samples. *)
Definition sample_sid : SID.t := SID.mk 1 5 [32].

Definition allowed_ace : ACE.t SID.t :=
  ACE.mk ACCESS_ALLOWED ∅ 0x001f01ff None None sample_sid None 20.

Definition inherited_ace : ACE.t SID.t :=
  ACE.mk ACCESS_ALLOWED {[OBJECT_INHERIT; INHERITED]} 0x001f01ff None None
    sample_sid None 20.

Definition alarm_callback_ace : ACE.t SID.t :=
  ACE.mk SYSTEM_ALARM_CALLBACK ∅ 1 None None sample_sid None 24.

Definition allowed_callback_ace : ACE.t SID.t :=
  ACE.mk ACCESS_ALLOWED_CALLBACK ∅ 1 None None sample_sid
    (Some [xaa; xbb; xcc; xdd]) 24.



Definition object_ace : ACE.t SID.t :=
  ACE.mk ACCESS_ALLOWED_OBJECT ∅ 0x00000100
    (Some (mkUUID 0x030201000504070608090a0b0c0d0e0f))
    (Some (mkUUID 0x131211101514171618191a1b1c1d1e1f))
    sample_sid None 56.

Definition zero_size_ace : ACE.t SID.t :=
  ACE.mk ACCESS_ALLOWED ∅ 1 None None sample_sid None 0.

(** ** Vocabulary of the statements *)

(** The [len] bytes of [data] that start at offset [off]. *)
Definition field (off len : Z) (data : bytes) : bytes :=
  take (Z.to_nat len) (drop (Z.to_nat off) data).

(** Bytes taken by an optional GUID. *)
Definition guid_len (g : option UUID) : Z := if g is Some _ then 16 else 0.

(** The eight object-variant entry types. *)
Definition object_family : list ACEType :=
  [ACCESS_ALLOWED_OBJECT; ACCESS_DENIED_OBJECT; SYSTEM_AUDIT_OBJECT;
   SYSTEM_ALARM_OBJECT; ACCESS_ALLOWED_CALLBACK_OBJECT;
   ACCESS_DENIED_CALLBACK_OBJECT; SYSTEM_AUDIT_CALLBACK_OBJECT;
   SYSTEM_ALARM_CALLBACK_OBJECT].

(** The eight callback entry types. *)
Definition callback_family : list ACEType :=
  [ACCESS_ALLOWED_CALLBACK; ACCESS_DENIED_CALLBACK;
   ACCESS_ALLOWED_CALLBACK_OBJECT; ACCESS_DENIED_CALLBACK_OBJECT;
   SYSTEM_AUDIT_CALLBACK; SYSTEM_ALARM_CALLBACK;
   SYSTEM_AUDIT_CALLBACK_OBJECT; SYSTEM_ALARM_CALLBACK_OBJECT].

(** Offset of the trustee in the buffer an entry was decoded from. *)
Definition trustee_offset {S} (a : ACE.t S) : Z :=
  8 + (if bool_decide (ACE.type a ∈ object_family) then 4 else 0)
    + guid_len (ACE.object_type a) + guid_len (ACE.inherited_object_type a).

(** Offset of the first byte after the trustee. *)
Definition payload_offset {S} `{!SIDLike S} (a : ACE.t S) : Z :=
  trustee_offset a + 8 + 4 * Z.of_nat (length (SID_subauthorities (ACE.trustee_sid a))).

(** The entry types listed in the test at line 122. *)
Definition payload_types : list ACEType :=
  [ACCESS_ALLOWED_CALLBACK; ACCESS_DENIED_CALLBACK;
   ACCESS_ALLOWED_CALLBACK_OBJECT; ACCESS_DENIED_CALLBACK_OBJECT;
   SYSTEM_AUDIT_OBJECT; SYSTEM_AUDIT_CALLBACK].

(** The states [(i, aces, start_pos)] of the loop of [ACL.from_binary]: after
    [i] iterations that raised nothing, [aces] holds the entries decoded so
    far and [start_pos] is the cursor. *)
Inductive loop_reaches {S} `{!SIDLike S} (data : bytes)
    : nat → list (ACE.t S) → Z → Prop :=
| loop_start : loop_reaches data 0 [] 8
| loop_next i aces start_pos ace :
    loop_reaches data i aces start_pos →
    ACE.from_binary (PyBytes (drop (Z.to_nat start_pos) data)) = OK ace →
    loop_reaches data (Datatypes.S i) (aces ++ [ace]) (start_pos + ACE.size ace).

(** The message of the [ValueError] that an unpacking failure inside
    [ACE.from_binary] becomes. *)
Definition malformed_ace : exn :=
  Exn ValueError "Not a valid binary ACE, unpack requires a buffer of 4 bytes".

(** ** Further sample buffers *)

(** [inherited_ace_bytes] with bit 0x20 of the flag byte set as well. *)
Definition stray_flag_ace_bytes : bytes :=
  [x00; x31; x14; x00; x00; x1f; x01; xff] ++ sid_bytes.

(** An ACCESS_ALLOWED_CALLBACK entry that declares size 0, with one byte
    after its trustee. *)
Definition callback_zero_size_ace_bytes : bytes :=
  [x09; x00; x00; x00; x00; x00; x00; x01] ++ sid_bytes ++ [xaa].

Definition callback_zero_size_ace : ACE.t SID.t :=
  ACE.mk ACCESS_ALLOWED_CALLBACK ∅ 1 None None sample_sid (Some []) 0.

(** The first 32 bytes of [object_ace_bytes]: object flags 3 and 20 bytes
    where 32 bytes of GUIDs are due. *)
Definition object_ace_truncated_bytes : bytes := take 32 object_ace_bytes.

(** An ACL of revision 4 with two entries, of declared sizes 20 and 24. *)
Definition acl_two_entries_bytes : bytes :=
  [x04; x00; x34; x00; x02; x00; x00; x00]
  ++ allowed_ace_bytes ++ allowed_callback_ace_bytes.

Definition acl_two_entries : ACL.t SID.t :=
  ACL.mk ACL_REVISION_DS 0 0 [allowed_ace; allowed_callback_ace] 52.

(** The same entries behind a header with other size and reserved bytes. *)
Definition acl_two_entries_odd_header_bytes : bytes :=
  [x04; x7f; xff; xff; x02; x00; xee; xee]
  ++ allowed_ace_bytes ++ allowed_callback_ace_bytes.

(** An ACL with revision byte 1 and one entry that decodes. *)
Definition acl_bad_revision_bytes : bytes :=
  [x01; x00; x1c; x00; x01; x00; x00; x00] ++ allowed_ace_bytes.

(** An ACL that declares two entries and holds one. *)
Definition acl_truncated_bytes : bytes :=
  [x02; x00; x1c; x00; x02; x00; x00; x00] ++ allowed_ace_bytes.



(** ** Further vocabulary *)

(** The members of an enumeration whose value meets [m]: the shape of the two
    set comprehensions of [acl.py] (lines 133 and 163). *)
Definition enum_set {E} `{Countable E} (value : E → Z) (members : list E)
    (m : Z) : gset E :=
  list_to_set (filter (λ e, Z.land m (value e) ≠ 0) members).

(** The bits of the flag byte that have a member of [ACEFlag]: all but 0x20. *)
Definition named_flag_bits : Z := 0xDF.

(** The bits of the mask that have a member of [ACERight]. *)
Definition named_right_bits : Z := 0xB71F01FF.

(** Total of the declared sizes of a run of entries. *)
Definition sizes_sum {S} (aces : list (ACE.t S)) : Z :=
  foldr (λ ace total, ACE.size ace + total) 0 aces.

(** The [ValueError] that a short ACL header becomes. *)
Definition malformed_acl : exn :=
  Exn ValueError "Not a valid binary ACL, unpack requires a buffer of 8 bytes".

(** The [ValueError] of [uuid.UUID] for a slice that is not 16 bytes long. *)
Definition guid_error : exn :=
  Exn ValueError "bytes_le is not a 16-char string".

(** * Properties *)

(** ** Results, slices and bit tests *)

Lemma except_struct_error_OK {A} prefix (body : result A) a :
  except_struct_error prefix body = OK a → body = OK a.
Proof. destruct body as [|[[] ?]]; simpl; congruence. Qed.

Lemma except_struct_error_passes {A} prefix (body : result A) e :
  body = Raise e → exn_kind e ≠ StructError →
  except_struct_error prefix body = Raise e.
Proof. intros -> Hk. destruct e as [[] ?]; simpl in *; congruence. Qed.

Lemma except_struct_error_kind {A} prefix (body : result A) e :
  except_struct_error prefix body = Raise e → exn_kind e ≠ StructError.
Proof.
  destruct body as [|[[] ?]]; simpl; intros [= <-]; discriminate.
Qed.

Lemma slice_to (hi : Z) (data : bytes) :
  0 ≤ hi → slice None (Some hi) data = take (Z.to_nat hi) data.
Proof.
  intros Hhi. unfold slice, clamp; simpl.
  destruct (Z.ltb_spec hi 0); [lia|].
  destruct (Z.le_gt_cases hi (Z.of_nat (length data))).
  - by rewrite Z.min_l.
  - rewrite Z.min_r by lia. rewrite Nat2Z.id, !take_ge; [done|lia|lia].
Qed.

Lemma slice_range (lo hi : Z) (data : bytes) :
  0 ≤ lo → 0 ≤ hi →
  slice (Some lo) (Some hi) data = drop (Z.to_nat lo) (take (Z.to_nat hi) data).
Proof.
  intros Hlo Hhi. unfold slice, clamp; simpl.
  destruct (Z.ltb_spec lo 0); [lia|]. destruct (Z.ltb_spec hi 0); [lia|].
  set (len := Z.of_nat (length data)).
  assert (Hh : take (Z.to_nat (hi `min` len)) data = take (Z.to_nat hi) data).
  { destruct (Z.le_gt_cases hi len).
    - by rewrite Z.min_l.
    - rewrite Z.min_r by lia. unfold len. rewrite Nat2Z.id, !take_ge; [done|lia|lia]. }
  rewrite Hh.
  destruct (Z.le_gt_cases lo len).
  - by rewrite Z.min_l.
  - rewrite Z.min_r by lia.
    rewrite !drop_ge; [done| |]; rewrite length_take; unfold len in *; lia.
Qed.

Lemma slice_from (lo : Z) (data : bytes) :
  0 ≤ lo → slice (Some lo) None data = drop (Z.to_nat lo) data.
Proof.
  intros Hlo. unfold slice, clamp; simpl.
  destruct (Z.ltb_spec lo 0); [lia|].
  rewrite Nat2Z.id, firstn_all.
  destruct (Z.le_gt_cases lo (Z.of_nat (length data))).
  - by rewrite Z.min_l.
  - rewrite Z.min_r by lia. rewrite Nat2Z.id, !drop_ge; [done|lia|lia].
Qed.

Lemma slice_field (off len : Z) (data : bytes) :
  0 ≤ off → 0 ≤ len →
  slice (Some off) (Some (off + len)) data = field off len data.
Proof.
  intros Hoff Hlen. rewrite slice_range by lia. unfold field.
  rewrite take_drop_commute. f_equal. f_equal. lia.
Qed.

Lemma land_pow2_nonzero (x k : Z) :
  0 ≤ k → Z.land x (2 ^ k) ≠ 0 ↔ Z.testbit x k = true.
Proof.
  intros Hk. split.
  - intros Hnz. destruct (Z.testbit x k) eqn:Hb; [done|].
    exfalso. apply Hnz. apply Z.bits_inj'. intros n Hn.
    rewrite Z.land_spec, Z.bits_0, Z.pow2_bits_eqb by lia.
    destruct (Z.eqb_spec k n) as [->|]; [by rewrite Hb|by rewrite andb_false_r].
  - intros Hb Hz.
    assert (Z.testbit (Z.land x (2 ^ k)) k = true) as Ht.
    { rewrite Z.land_spec, Hb, Z.pow2_bits_true by lia. done. }
    by rewrite Hz, Z.bits_0 in Ht.
Qed.

Lemma enum_call_OK {E} name (value : E → Z) members v e :
  enum_call name value members v = OK e → value e = v ∧ In e members.
Proof.
  unfold enum_call. destruct (List.find _ _) eqn:Hf; [|done].
  intros [= <-]. apply find_some in Hf as [? ?%Z.eqb_eq]. done.
Qed.

(** ** Inversion of a successful [ACE.from_binary] *)

Section ace_facts.
Context {S : Type} `{!SIDLike S}.

Lemma ace_body_short (data : bytes) :
  (length data < 8)%nat →
  ACE.from_binary_body (S:=S) (PyBytes data) = Raise (pystruct.error 4).
Proof.
  intros Hlen.
  do 8 (destruct data as [|? data]; [reflexivity|]).
  simpl in Hlen. lia.
Qed.

Lemma ace_body_long b0 b1 b2 b3 b4 b5 b6 b7 rest :
  let data := b0 :: b1 :: b2 :: b3 :: b4 :: b5 :: b6 :: b7 :: rest in
  let size := pystruct.le_int [b2; b3] in
  ACE.from_binary_body (S:=S) (PyBytes data) =
    ty ← ACEType_call (byte_val b0);
    '(object_type, inherited_object_type, pos) ←
      (if bool_decide (ty ∈ ACE.object_types) then ACE.read_object_fields data 8
       else OK (None, None, 8));
    trustee_sid ← SID_bytes_le (slice (Some pos) None data);
    OK (ACE.mk ty (ACE.flag_set (byte_val b1)) (pystruct.be_int [b4; b5; b6; b7])
          object_type inherited_object_type trustee_sid
          (if bool_decide (ty ∈ ACE.application_data_types)
           then Some (slice (Some (pos + (8 + Z.of_nat (length (SID_subauthorities trustee_sid)) * 4)))
                        (Some size) data)
           else None)
          size).
Proof.
  intros data size. unfold ACE.from_binary_body. cbn [mbind result_bind].
  rewrite slice_to, slice_range by lia.
  change (Z.to_nat 4) with 4%nat. change (Z.to_nat 8) with 8%nat.
  subst data size. cbn [take drop pystruct.unpack_BBH pystruct.unpack_L_be mbind result_bind].
  destruct (ACEType_call (byte_val b0)) as [ty|]; [|done]. cbn.
  destruct (if bool_decide (ty ∈ ACE.object_types) then _ else _) as [[[ot iot] pos]|]; [|done].
  cbn. destruct (SID_bytes_le _); done.
Qed.

Lemma ace_from_binary_short (data : bytes) :
  (length data < 8)%nat → ACE.from_binary (S:=S) (PyBytes data) = Raise malformed_ace.
Proof.
  intros Hlen. unfold ACE.from_binary. by rewrite ace_body_short.
Qed.

Lemma unpack_I_le_OK buf v :
  pystruct.unpack_I_le buf = OK v →
  ∃ f0 f1 f2 f3, buf = [f0; f1; f2; f3] ∧
    v = byte_val f0 + 2 ^ 8 * byte_val f1 + 2 ^ 16 * byte_val f2 + 2 ^ 24 * byte_val f3.
Proof.
  destruct buf as [|f0 [|f1 [|f2 [|f3 [|]]]]]; try discriminate.
  intros [= <-]. exists f0, f1, f2, f3. split; [done|].
  unfold pystruct.le_int. lia.
Qed.

Lemma UUID_bytes_le_OK buf u :
  UUID_bytes_le buf = OK u → length buf = 16%nat.
Proof. unfold UUID_bytes_le. case_bool_decide; [done|discriminate]. Qed.

Lemma guid_len_nonneg g : 0 ≤ guid_len g.
Proof. destruct g; simpl; lia. Qed.

Lemma read_object_fields_OK (data : bytes) ot iot pos :
  ACE.read_object_fields data 8 = OK (ot, iot, pos) →
  ∃ obj_flag,
    pystruct.unpack_I_le (field 8 4 data) = OK obj_flag ∧
    (if bool_decide (Z.land obj_flag 1 ≠ 0)
     then ∃ u, UUID_bytes_le (field 12 16 data) = OK u ∧ ot = Some u
     else ot = None) ∧
    (if bool_decide (Z.land obj_flag 2 ≠ 0)
     then ∃ u, UUID_bytes_le (field (12 + guid_len ot) 16 data) = OK u ∧ iot = Some u
     else iot = None) ∧
    pos = 12 + guid_len ot + guid_len iot.
Proof.
  unfold ACE.read_object_fields. intros H.
  change (8 + 4 + 16) with 28 in H. change (8 + 4) with 12 in H.
  rewrite (slice_field 8 4) in H by lia.
  destruct (pystruct.unpack_I_le _) as [obj_flag|] eqn:Hflag;
    cbn [mbind result_bind] in H; [|discriminate H].
  exists obj_flag. split; [done|].
  destruct (bool_decide (Z.land obj_flag 1 ≠ 0)).
  - rewrite (slice_field 12 16) in H by lia.
    destruct (UUID_bytes_le (field 12 16 data)) as [u|] eqn:Hu;
      cbn [mbind result_bind] in H; [|discriminate H].
    destruct (bool_decide (Z.land obj_flag 2 ≠ 0)).
    + rewrite (slice_field 28 16) in H by lia.
      destruct (UUID_bytes_le (field 28 16 data)) as [u'|] eqn:Hu';
        cbn [mbind result_bind] in H; [|discriminate H].
      injection H as <- <- <-. simpl. eauto 10.
    + cbn [mbind result_bind] in H. injection H as <- <- <-. simpl. eauto 10.
  - cbn [mbind result_bind] in H.
    destruct (bool_decide (Z.land obj_flag 2 ≠ 0)).
    + rewrite (slice_field 12 16) in H by lia.
      destruct (UUID_bytes_le (field 12 16 data)) as [u'|] eqn:Hu';
        cbn [mbind result_bind] in H; [|discriminate H].
      injection H as <- <- <-. simpl. eauto 10.
    + cbn [mbind result_bind] in H. injection H as <- <- <-. simpl. eauto 10.
Qed.

(** What a successful decode tells about the buffer and the entry. *)
Lemma ace_from_binary_OK (data : bytes) (ace : ACE.t S) :
  ACE.from_binary (PyBytes data) = OK ace →
  ∃ b0 b1 b2 b3 b4 b5 b6 b7 rest pos,
    data = b0 :: b1 :: b2 :: b3 :: b4 :: b5 :: b6 :: b7 :: rest ∧
    ACEType_call (byte_val b0) = OK (ACE.type ace) ∧
    (if bool_decide (ACE.type ace ∈ ACE.object_types)
     then ACE.read_object_fields data 8
          = OK (ACE.object_type ace, ACE.inherited_object_type ace, pos)
     else ACE.object_type ace = None ∧ ACE.inherited_object_type ace = None ∧ pos = 8) ∧
    SID_bytes_le (slice (Some pos) None data) = OK (ACE.trustee_sid ace) ∧
    ACE.flags ace = ACE.flag_set (byte_val b1) ∧
    ACE.mask ace = pystruct.be_int [b4; b5; b6; b7] ∧
    ACE.size ace = pystruct.le_int [b2; b3] ∧
    ACE.application_data ace =
      (if bool_decide (ACE.type ace ∈ ACE.application_data_types)
       then Some (slice (Some (pos + (8 + Z.of_nat (length (SID_subauthorities (ACE.trustee_sid ace))) * 4)))
                    (Some (ACE.size ace)) data)
       else None).
Proof.
  intros H%except_struct_error_OK.
  destruct (decide (length data < 8)%nat) as [Hs|Hl].
  { rewrite ace_body_short in H by done. discriminate H. }
  do 8 (destruct data as [|? data]; [simpl in Hl; lia|]). clear Hl.
  rewrite ace_body_long in H.
  destruct (ACEType_call _) as [ty|] eqn:Hty;
    cbn [mbind result_bind] in H; [|discriminate H].
  destruct (if bool_decide (ty ∈ ACE.object_types) then _ else _)
    as [[[ot iot] pos]|] eqn:Hobj; cbn [mbind result_bind] in H; [|discriminate H].
  destruct (SID_bytes_le _) as [sid|] eqn:Hsid;
    cbn [mbind result_bind] in H; [|discriminate H].
  injection H as <-. simpl.
  do 9 eexists. exists pos. split; [done|]. split; [done|].
  split; [|done].
  case_bool_decide; [done|]. by injection Hobj as <- <- <-.
Qed.

Lemma trustee_offset_bounds (a : ACE.t S) : 8 ≤ trustee_offset a ≤ 44.
Proof.
  unfold trustee_offset.
  destruct (ACE.object_type a), (ACE.inherited_object_type a),
    (bool_decide (ACE.type a ∈ object_family)); simpl; lia.
Qed.

Lemma byte_val_range b : 0 ≤ byte_val b < 256.
Proof. destruct b; vm_compute; split; congruence. Qed.

Lemma ace_cursor (data : bytes) (ace : ACE.t S) pos :
  (if bool_decide (ACE.type ace ∈ ACE.object_types)
   then ACE.read_object_fields data 8
        = OK (ACE.object_type ace, ACE.inherited_object_type ace, pos)
   else ACE.object_type ace = None ∧ ACE.inherited_object_type ace = None ∧ pos = 8) →
  pos = trustee_offset ace.
Proof.
  unfold trustee_offset, object_family. intros H.
  change ACE.object_types with
    [ACCESS_ALLOWED_OBJECT; ACCESS_DENIED_OBJECT; SYSTEM_AUDIT_OBJECT;
     SYSTEM_ALARM_OBJECT; ACCESS_ALLOWED_CALLBACK_OBJECT;
     ACCESS_DENIED_CALLBACK_OBJECT; SYSTEM_AUDIT_CALLBACK_OBJECT;
     SYSTEM_ALARM_CALLBACK_OBJECT] in H.
  case_bool_decide.
  - apply read_object_fields_OK in H as (? & _ & _ & _ & ->). lia.
  - destruct H as (-> & -> & ->). done.
Qed.

End ace_facts.

(** ** Properties of [ACE.from_binary] and [ACE.rights] *)

Section ace_properties.
Context {S : Type} `{!SIDLike S}.

(** C1 (as amended): for every buffer that decodes, [application_data] is the
    bytes from the cursor after the trustee up to the declared [aceSize]
    exactly when the entry type is one of ACCESS_ALLOWED_CALLBACK,
    ACCESS_DENIED_CALLBACK, ACCESS_ALLOWED_CALLBACK_OBJECT,
    ACCESS_DENIED_CALLBACK_OBJECT, SYSTEM_AUDIT_OBJECT and
    SYSTEM_AUDIT_CALLBACK; for every other type it is absent. *)
Theorem ace_application_data_capture (data : bytes) (ace : ACE.t S) :
  ACE.from_binary (PyBytes data) = OK ace →
  (ACE.type ace ∈ payload_types →
     ACE.application_data ace =
       Some (drop (Z.to_nat (payload_offset ace)) (take (Z.to_nat (ACE.size ace)) data))) ∧
  (ACE.type ace ∉ payload_types → ACE.application_data ace = None).
Proof.
  intros (b0 & b1 & b2 & b3 & b4 & b5 & b6 & b7 & rest & pos & -> & _ & Hobj
          & _ & _ & _ & Hsize & Happ)%ace_from_binary_OK.
  apply ace_cursor in Hobj as ->.
  change ACE.application_data_types with payload_types in Happ.
  rewrite Happ. split; intros Hty.
  - rewrite bool_decide_eq_true_2 by done. f_equal.
    pose proof (guid_len_nonneg (ACE.object_type ace)).
    pose proof (guid_len_nonneg (ACE.inherited_object_type ace)).
    pose proof (byte_val_range b2). pose proof (byte_val_range b3).
    pose proof (trustee_offset_bounds ace).
    rewrite slice_range.
    + unfold payload_offset. do 2 f_equal. lia.
    + lia.
    + rewrite Hsize. unfold pystruct.le_int. lia.
  - by rewrite bool_decide_eq_false_2.
Qed.


(** C4: for every successfully decoded entry of an object-variant type, the
    four bytes at offset 8 are the little-endian object flags; [object_type]
    is present iff bit 0 of them is set and [inherited_object_type] iff bit 1
    is set; the GUIDs are read in that order from offset 12, each from exactly
    16 bytes, and the trustee is read after them. For every other type both
    are absent and the trustee is read at offset 8. *)
Theorem ace_object_fields (data : bytes) (ace : ACE.t S) :
  ACE.from_binary (PyBytes data) = OK ace →
  (ACE.type ace ∈ object_family →
     ∃ f0 f1 f2 f3 obj_flag,
       field 8 4 data = [f0; f1; f2; f3] ∧
       obj_flag = byte_val f0 + 2 ^ 8 * byte_val f1 + 2 ^ 16 * byte_val f2
                  + 2 ^ 24 * byte_val f3 ∧
       (is_Some (ACE.object_type ace) ↔ Z.testbit obj_flag 0 = true) ∧
       (is_Some (ACE.inherited_object_type ace) ↔ Z.testbit obj_flag 1 = true) ∧
       (∀ u, ACE.object_type ace = Some u →
          length (field 12 16 data) = 16%nat ∧
          UUID_bytes_le (field 12 16 data) = OK u) ∧
       (∀ u, ACE.inherited_object_type ace = Some u →
          length (field (12 + guid_len (ACE.object_type ace)) 16 data) = 16%nat ∧
          UUID_bytes_le (field (12 + guid_len (ACE.object_type ace)) 16 data) = OK u) ∧
       SID_bytes_le
         (drop (Z.to_nat (12 + guid_len (ACE.object_type ace)
                          + guid_len (ACE.inherited_object_type ace))) data)
       = OK (ACE.trustee_sid ace)) ∧
  (ACE.type ace ∉ object_family →
     ACE.object_type ace = None ∧ ACE.inherited_object_type ace = None ∧
     SID_bytes_le (drop 8 data) = OK (ACE.trustee_sid ace)).
Proof.
  intros (b0 & b1 & b2 & b3 & b4 & b5 & b6 & b7 & rest & pos & Hdata & _ & Hobj
          & Hsid & _)%ace_from_binary_OK.
  change ACE.object_types with object_family in Hobj.
  split; intros Hty.
  - rewrite bool_decide_eq_true_2 in Hobj by done.
    apply read_object_fields_OK in Hobj as (obj_flag & Hflag & Hot & Hiot & ->).
    apply unpack_I_le_OK in Hflag as (f0 & f1 & f2 & f3 & Hfield & Hval).
    exists f0, f1, f2, f3, obj_flag. split; [done|]. split; [done|].
    pose proof (land_pow2_nonzero obj_flag 0) as Hb0.
    pose proof (land_pow2_nonzero obj_flag 1) as Hb1.
    change (2 ^ 0) with 1 in Hb0. change (2 ^ 1) with 2 in Hb1.
    pose proof (guid_len_nonneg (ACE.object_type ace)).
    pose proof (guid_len_nonneg (ACE.inherited_object_type ace)).
    rewrite slice_from in Hsid by lia.
    assert (is_Some (ACE.object_type ace) ↔ Z.land obj_flag 1 ≠ 0) as Hp0.
    { destruct (bool_decide_reflect (Z.land obj_flag 1 ≠ 0)) as [Hnz|Hz].
      - destruct Hot as (u & _ & ->). split; eauto.
      - rewrite Hot. split; [by intros [? ?]|done]. }
    assert (is_Some (ACE.inherited_object_type ace) ↔ Z.land obj_flag 2 ≠ 0) as Hp1.
    { destruct (bool_decide_reflect (Z.land obj_flag 2 ≠ 0)) as [Hnz|Hz].
      - destruct Hiot as (u & _ & ->). split; eauto.
      - rewrite Hiot. split; [by intros [? ?]|done]. }
    split; [rewrite Hp0; apply Hb0; lia|].
    split; [rewrite Hp1; apply Hb1; lia|].
    split; [|split; [|done]].
    + intros u Hu.
      destruct (bool_decide (Z.land obj_flag 1 ≠ 0)); [|congruence].
      destruct Hot as (u' & Hu' & Heq).
      split; [by apply UUID_bytes_le_OK in Hu'|congruence].
    + intros u Hu.
      destruct (bool_decide (Z.land obj_flag 2 ≠ 0)); [|congruence].
      destruct Hiot as (u' & Hu' & Heq).
      split; [by apply UUID_bytes_le_OK in Hu'|congruence].
  - rewrite bool_decide_eq_false_2 in Hobj by done.
    destruct Hobj as (Hot & Hiot & ->).
    rewrite slice_from in Hsid by lia. done.
Qed.

(** C5: for every successfully decoded entry, the header is read from bytes
    0-3 (type and flags as single bytes, size as a little-endian 16-bit
    integer) and the mask is the big-endian 32-bit integer at bytes 4-7. *)
Theorem ace_header_and_mask (data : bytes) (ace : ACE.t S) :
  ACE.from_binary (PyBytes data) = OK ace →
  ∃ b0 b1 b2 b3 b4 b5 b6 b7 rest,
    data = b0 :: b1 :: b2 :: b3 :: b4 :: b5 :: b6 :: b7 :: rest ∧
    ACEType_value (ACE.type ace) = byte_val b0 ∧
    (∀ flg, flg ∈ ACE.flags ace ↔ Z.land (byte_val b1) (ACEFlag_value flg) ≠ 0) ∧
    ACE.size ace = byte_val b2 + 2 ^ 8 * byte_val b3 ∧
    ACE.mask ace = 2 ^ 24 * byte_val b4 + 2 ^ 16 * byte_val b5
                   + 2 ^ 8 * byte_val b6 + byte_val b7.
Proof.
  intros (b0 & b1 & b2 & b3 & b4 & b5 & b6 & b7 & rest & pos & -> & Hty & _
          & _ & Hflags & Hmask & Hsize & _)%ace_from_binary_OK.
  exists b0, b1, b2, b3, b4, b5, b6, b7, rest.
  split; [done|]. split; [by apply enum_call_OK in Hty as [? _]|].
  split; [|split].
  - intros flg. rewrite Hflags. unfold ACE.flag_set.
    rewrite elem_of_list_to_set, list_elem_of_filter.
    split; [by intros [? _]|]. intros Hnz. split; [done|].
    apply list_elem_of_In. destruct flg; simpl; tauto.
  - rewrite Hsize. unfold pystruct.le_int. lia.
  - rewrite Hmask. unfold pystruct.be_int, pystruct.le_int; simpl. lia.
Qed.

(** C6: for every entry, [rights] holds exactly the members of [ACERight]
    whose bit is set in the mask, each member being a single bit of a 32-bit
    word; with mask 0x80000000 it is the singleton of GENERIC_READ. *)
Theorem ace_rights_exact (ace : ACE.t S) :
  (∀ rgt, rgt ∈ ACE.rights ace ↔
     ∃ k, 0 ≤ k < 32 ∧ ACERight_value rgt = 2 ^ k ∧ Z.testbit (ACE.mask ace) k = true) ∧
  ACE.rights (ACE.mk (ACE.type ace) (ACE.flags ace) 0x80000000 (ACE.object_type ace)
                (ACE.inherited_object_type ace) (ACE.trustee_sid ace)
                (ACE.application_data ace) (ACE.size ace))
  = {[ GENERIC_READ ]}.
Proof.
  split; [|reflexivity].
  intros rgt. unfold ACE.rights.
  rewrite elem_of_list_to_set, list_elem_of_filter. split.
  - intros [Hnz _].
    assert (∃ k, 0 ≤ k < 32 ∧ ACERight_value rgt = 2 ^ k) as (k & Hk & Hval).
    { destruct rgt;
        [exists 31|exists 26|exists 29|exists 28|exists 25|exists 24|exists 20
        |exists 19|exists 18|exists 17|exists 16|exists 8|exists 0|exists 1
        |exists 2|exists 3|exists 4|exists 5|exists 6|exists 7];
        (split; [lia|reflexivity]). }
    exists k. split; [done|]. split; [done|].
    rewrite Hval in Hnz. apply land_pow2_nonzero in Hnz; [done|lia].
  - intros (k & Hk & Hval & Hbit). split.
    + rewrite Hval. apply land_pow2_nonzero; [lia|done].
    + apply list_elem_of_In. destruct rgt; simpl; tauto.
Qed.

(** C7 (as amended): a buffer whose first byte is no member of [ACEType]
    never decodes. With at least 8 bytes the failure is the [ValueError] that
    names the invalid type value; with fewer it is the malformed-structure
    error, raised before the type code is looked at. *)
Theorem ace_unknown_type (b0 : byte) (rest : bytes) :
  (∀ ty, ACEType_value ty ≠ byte_val b0) →
  ((7 ≤ length rest)%nat →
     ACE.from_binary (S:=S) (PyBytes (b0 :: rest))
     = Raise (Exn ValueError (pretty (byte_val b0) +:+ " is not a valid ACEType"))) ∧
  ((length rest < 7)%nat →
     ACE.from_binary (S:=S) (PyBytes (b0 :: rest)) = Raise malformed_ace).
Proof.
  intros Hunknown. split; intros Hlen.
  - do 7 (destruct rest as [|? rest]; [simpl in Hlen; lia|]).
    unfold ACE.from_binary. rewrite ace_body_long.
    unfold ACEType_call, enum_call.
    destruct (List.find _ _) as [ty|] eqn:Hfind; [|reflexivity].
    apply find_some in Hfind as [_ Heq%Z.eqb_eq]. by apply Hunknown in Heq.
  - apply ace_from_binary_short. simpl. lia.
Qed.

End ace_properties.

(** ** Properties of [ACL.from_binary] *)

Section acl_properties.
Context {S : Type} `{!SIDLike S}.

Lemma acl_body_long r s1 z0 z1 c0 c1 y0 y1 rest :
  ACL.from_binary_body (S:=S)
    (PyBytes (r :: s1 :: z0 :: z1 :: c0 :: c1 :: y0 :: y1 :: rest)) =
    '(aces, _) ← ACL.read_aces (r :: s1 :: z0 :: z1 :: c0 :: c1 :: y0 :: y1 :: rest)
                   (Z.to_nat (pystruct.le_int [c0; c1])) [] 8;
    rev ← ACLRevision_call (byte_val r);
    OK (ACL.mk rev (byte_val s1) (pystruct.le_int [y0; y1]) aces
          (pystruct.le_int [z0; z1])).
Proof.
  unfold ACL.from_binary_body. cbn [mbind result_bind].
  rewrite slice_to by lia. change (Z.to_nat 8) with 8%nat.
  cbn [take]. change (take 0 rest) with (@nil byte).
  cbn [pystruct.unpack_BBHHH mbind result_bind].
  destruct (ACL.read_aces _ _ _ _) as [[aces pos]|]; [|reflexivity].
  cbn [mbind result_bind]. destruct (ACLRevision_call _); reflexivity.
Qed.

Lemma ace_size_nonneg (data : bytes) (ace : ACE.t S) :
  ACE.from_binary (PyBytes data) = OK ace → 0 ≤ ACE.size ace.
Proof.
  intros (b0 & b1 & b2 & b3 & b4 & b5 & b6 & b7 & rest & pos & _ & _ & _ & _
          & _ & _ & -> & _)%ace_from_binary_OK.
  pose proof (byte_val_range b2). pose proof (byte_val_range b3).
  unfold pystruct.le_int. lia.
Qed.

Lemma read_aces_add (data : bytes) n m aces start_pos :
  ACL.read_aces (S:=S) data (n + m) aces start_pos =
    '(aces', start_pos') ← ACL.read_aces data n aces start_pos;
    ACL.read_aces data m aces' start_pos'.
Proof.
  revert aces start_pos. induction n as [|n IH]; intros aces start_pos; [done|].
  cbn [Nat.add ACL.read_aces].
  destruct (ACE.from_binary _) as [ace|]; [|reflexivity].
  cbn [mbind result_bind]. apply IH.
Qed.

Lemma loop_reaches_read_aces (data : bytes) i aces start_pos :
  loop_reaches data i aces start_pos →
  8 ≤ start_pos ∧ ACL.read_aces data i [] 8 = OK (aces, start_pos).
Proof.
  induction 1 as [|i aces start_pos ace _ [Hpos IH] Hace]; [done|].
  split; [apply ace_size_nonneg in Hace; lia|].
  replace (Datatypes.S i) with (i + 1)%nat by lia.
  rewrite read_aces_add, IH. cbn [mbind result_bind ACL.read_aces].
  rewrite slice_from by lia. by rewrite Hace.
Qed.

Lemma read_aces_stuck (data : bytes) (ace : ACE.t S) start_pos :
  ACE.from_binary (PyBytes (slice (Some start_pos) None data)) = OK ace →
  ACE.size ace = 0 →
  ∀ n aces,
    ACL.read_aces data n aces start_pos = OK (aces ++ replicate n ace, start_pos).
Proof.
  intros Hace Hsize. induction n as [|n IH]; intros aces.
  - simpl. by rewrite app_nil_r.
  - cbn [ACL.read_aces]. rewrite Hace. cbn [mbind result_bind].
    rewrite Hsize, Z.add_0_r, IH, <- app_assoc. done.
Qed.

(** C3 (as amended): when an inner [ACE.from_binary] call of the loop fails,
    [ACL.from_binary] fails with that very exception: it reaches the caller
    unchanged, with no mention of the ACL added. *)
Theorem acl_ace_failure_unchanged (r s1 z0 z1 c0 c1 y0 y1 : byte) (rest data : bytes)
    (i : nat) (aces : list (ACE.t S)) (start_pos : Z) (e : exn) :
  data = r :: s1 :: z0 :: z1 :: c0 :: c1 :: y0 :: y1 :: rest →
  Z.of_nat i < byte_val c0 + 256 * byte_val c1 →
  loop_reaches data i aces start_pos →
  ACE.from_binary (PyBytes (drop (Z.to_nat start_pos) data)) = Raise e →
  ACL.from_binary (PyBytes data) = Raise e.
Proof.
  intros Hdata Hcount [Hpos Hloop]%loop_reaches_read_aces Hfail.
  pose proof (except_struct_error_kind _ _ _ Hfail) as Hkind.
  unfold ACL.from_binary. apply except_struct_error_passes; [|done].
  rewrite Hdata, acl_body_long, <- Hdata.
  replace (Z.to_nat (pystruct.le_int [c0; c1]))
    with (i + Datatypes.S (Z.to_nat (pystruct.le_int [c0; c1]) - Datatypes.S i))%nat
    by (unfold pystruct.le_int; lia).
  rewrite read_aces_add, Hloop. cbn [mbind result_bind ACL.read_aces].
  rewrite slice_from by lia. by rewrite Hfail.
Qed.

(** C8: for every buffer of at least 8 bytes whose header has a recognized
    revision and [aceCount = 0], [ACL.from_binary] succeeds with no entry; the
    loop leaves the cursor at 8 and the result does not depend on the bytes
    after the header. *)
Theorem acl_no_entries (r s1 z0 z1 c0 c1 y0 y1 : byte) (rest : bytes) (rev : ACLRevision) :
  ACLRevision_value rev = byte_val r →
  byte_val c0 + 256 * byte_val c1 = 0 →
  ACL.from_binary (S:=S) (PyBytes (r :: s1 :: z0 :: z1 :: c0 :: c1 :: y0 :: y1 :: rest))
  = OK (ACL.mk rev (byte_val s1) (byte_val y0 + 256 * byte_val y1) []
          (byte_val z0 + 256 * byte_val z1)) ∧
  ACL.read_aces (S:=S) (r :: s1 :: z0 :: z1 :: c0 :: c1 :: y0 :: y1 :: rest)
    (Z.to_nat (byte_val c0 + 256 * byte_val c1)) [] 8 = OK ([], 8).
Proof.
  intros Hrev Hcount. split; [|by rewrite Hcount].
  unfold ACL.from_binary. rewrite acl_body_long.
  replace (pystruct.le_int [c0; c1]) with 0 by (unfold pystruct.le_int; lia).
  change (Z.to_nat 0) with 0%nat. cbn [ACL.read_aces mbind result_bind].
  assert (ACLRevision_call (byte_val r) = OK rev) as ->.
  { rewrite <- Hrev. by destruct rev. }
  cbn [mbind result_bind except_struct_error]. f_equal.
  f_equal; unfold pystruct.le_int; lia.
Qed.

(** C9: for every argument that is not a [bytes] value, [ACE.from_binary] and
    [ACL.from_binary] both raise [TypeError], whatever the argument holds. *)
Theorem from_binary_rejects_non_bytes (data : pyobj) :
  (∀ b, data ≠ PyBytes b) →
  ACE.from_binary (S:=S) data
  = Raise (Exn TypeError "The `data` parameter must be bytes") ∧
  ACL.from_binary (S:=S) data
  = Raise (Exn TypeError "The `data` parameter must be bytes").
Proof.
  intros Hnot. destruct data; try (split; reflexivity). by destruct (Hnot b).
Qed.

(** C10 (as amended): for every ACL buffer with a recognized revision that
    declares [aceCount = n >= 1] and whose first entry decodes with a declared
    size of 0, [ACL.from_binary] succeeds: the loop runs [n] times with the
    cursor staying at 8, and the result holds [n] copies of the entry decoded
    at offset 8. *)
Theorem acl_zero_size_entries (r s1 z0 z1 c0 c1 y0 y1 : byte) (rest data : bytes)
    (ace : ACE.t S) (rev : ACLRevision) (n : nat) :
  data = r :: s1 :: z0 :: z1 :: c0 :: c1 :: y0 :: y1 :: rest →
  ACLRevision_value rev = byte_val r →
  Z.of_nat n = byte_val c0 + 256 * byte_val c1 →
  (1 ≤ n)%nat →
  ACE.from_binary (PyBytes (drop 8 data)) = OK ace →
  ACE.size ace = 0 →
  ACL.from_binary (PyBytes data)
  = OK (ACL.mk rev (byte_val s1) (byte_val y0 + 256 * byte_val y1) (replicate n ace)
          (byte_val z0 + 256 * byte_val z1)) ∧
  ACL.read_aces data n [] 8 = OK (replicate n ace, 8) ∧
  (∀ i, (i ≤ n)%nat → loop_reaches data i (replicate i ace) 8).
Proof.
  intros Hdata Hrev Hn Hpos Hace Hsize.
  assert (ACE.from_binary (PyBytes (slice (Some 8) None data)) = OK ace) as Hace'.
  { by rewrite slice_from by lia. }
  pose proof (read_aces_stuck data ace 8 Hace' Hsize n []) as Hloop.
  simpl in Hloop. split; [|split; [done|]].
  - unfold ACL.from_binary. rewrite Hdata, acl_body_long, <- Hdata.
    replace (Z.to_nat (pystruct.le_int [c0; c1])) with n
      by (unfold pystruct.le_int; lia).
    rewrite Hloop. cbn [mbind result_bind].
    assert (ACLRevision_call (byte_val r) = OK rev) as ->.
    { rewrite <- Hrev. by destruct rev. }
    cbn [mbind result_bind except_struct_error]. f_equal.
    f_equal; unfold pystruct.le_int; lia.
  - intros i _. induction i as [|i IH]; [constructor|].
    rewrite replicate_S_end.
    pose proof (loop_next data i (replicate i ace) 8 ace IH Hace) as Hnext.
    by rewrite Hsize in Hnext.
Qed.

End acl_properties.

(** ** The decoder on the sample buffers *)

(** C1, counterexample: a SYSTEM_ALARM_CALLBACK entry, which is of the
    callback family, decodes with no [application_data] although four bytes
    follow its trustee within the declared size. *)
Lemma alarm_callback_payload_dropped :
  ACE.from_binary (PyBytes alarm_callback_ace_bytes) = OK alarm_callback_ace ∧
  ACE.type alarm_callback_ace ∈ callback_family ∧
  ACE.application_data alarm_callback_ace = None.
Proof.
  split; [reflexivity|]. split; [|reflexivity].
  apply list_elem_of_In. simpl. tauto.
Qed.

(** The capture on an ACCESS_ALLOWED_CALLBACK entry: the four bytes after the
    trustee. *)
Lemma ace_application_data_capture_witness :
  ACE.from_binary (PyBytes allowed_callback_ace_bytes) = OK allowed_callback_ace ∧
  ((ACE.type allowed_callback_ace ∈ payload_types →
      ACE.application_data allowed_callback_ace =
        Some (drop (Z.to_nat (payload_offset allowed_callback_ace))
                (take (Z.to_nat (ACE.size allowed_callback_ace)) allowed_callback_ace_bytes))) ∧
   (ACE.type allowed_callback_ace ∉ payload_types →
      ACE.application_data allowed_callback_ace = None)).
Proof.
  split; [reflexivity|].
  apply (ace_application_data_capture allowed_callback_ace_bytes allowed_callback_ace).
  reflexivity.
Defined.


(** C3, counterexample: the ACL declares one entry and holds none; the inner
    call fails, and [ACL.from_binary] raises that exception as it is, its
    message naming the ACE only. *)
Lemma acl_error_without_context :
  ACE.from_binary (S:=SID.t) (PyBytes (drop 8 acl_missing_ace_bytes))
  = Raise (Exn ValueError "Not a valid binary ACE, unpack requires a buffer of 4 bytes") ∧
  ACL.from_binary (S:=SID.t) (PyBytes acl_missing_ace_bytes)
  = Raise (Exn ValueError "Not a valid binary ACE, unpack requires a buffer of 4 bytes").
Proof. split; reflexivity. Qed.

(** The second entry of an ACL has type code 99: the caller sees the error of
    [ACEType(99)] itself. *)
Lemma acl_ace_failure_unchanged_witness :
  (Z.of_nat 1 < byte_val x02 + 256 * byte_val x00) ∧
  loop_reaches acl_second_ace_bad_bytes 1 ([] ++ [allowed_ace]) (8 + ACE.size allowed_ace) ∧
  ACE.from_binary (S:=SID.t) (PyBytes (drop (Z.to_nat (8 + ACE.size allowed_ace)) acl_second_ace_bad_bytes))
  = Raise (Exn ValueError "99 is not a valid ACEType") ∧
  ACL.from_binary (S:=SID.t) (PyBytes acl_second_ace_bad_bytes)
  = Raise (Exn ValueError "99 is not a valid ACEType").
Proof.
  assert (loop_reaches acl_second_ace_bad_bytes 1 ([] ++ [allowed_ace])
            (8 + ACE.size allowed_ace)) as Hloop.
  { apply loop_next; [apply loop_start|reflexivity]. }
  split; [reflexivity|]. split; [exact Hloop|]. split; [reflexivity|].
  apply (acl_ace_failure_unchanged x04 x00 x24 x00 x02 x00 x00 x00
           (allowed_ace_bytes ++ unknown_type_bytes) acl_second_ace_bad_bytes
           1 ([] ++ [allowed_ace]) (8 + ACE.size allowed_ace));
    [reflexivity|reflexivity|exact Hloop|reflexivity].
Defined.

(** An ACCESS_ALLOWED_OBJECT entry with object flags 3. *)
Lemma ace_object_fields_witness :
  ACE.from_binary (PyBytes object_ace_bytes) = OK object_ace ∧
  ACE.type object_ace ∈ object_family ∧
  ∃ f0 f1 f2 f3 obj_flag,
    field 8 4 object_ace_bytes = [f0; f1; f2; f3] ∧
    obj_flag = byte_val f0 + 2 ^ 8 * byte_val f1 + 2 ^ 16 * byte_val f2
               + 2 ^ 24 * byte_val f3 ∧
    (is_Some (ACE.object_type object_ace) ↔ Z.testbit obj_flag 0 = true) ∧
    (is_Some (ACE.inherited_object_type object_ace) ↔ Z.testbit obj_flag 1 = true) ∧
    (∀ u, ACE.object_type object_ace = Some u →
       length (field 12 16 object_ace_bytes) = 16%nat ∧
       UUID_bytes_le (field 12 16 object_ace_bytes) = OK u) ∧
    (∀ u, ACE.inherited_object_type object_ace = Some u →
       length (field (12 + guid_len (ACE.object_type object_ace)) 16 object_ace_bytes) = 16%nat ∧
       UUID_bytes_le (field (12 + guid_len (ACE.object_type object_ace)) 16 object_ace_bytes) = OK u) ∧
    SID_bytes_le
      (drop (Z.to_nat (12 + guid_len (ACE.object_type object_ace)
                       + guid_len (ACE.inherited_object_type object_ace))) object_ace_bytes)
    = OK (ACE.trustee_sid object_ace).
Proof.
  assert (ACE.type object_ace ∈ object_family) as Hty.
  { apply list_elem_of_In. simpl. tauto. }
  split; [reflexivity|]. split; [exact Hty|].
  apply (ace_object_fields object_ace_bytes object_ace); [reflexivity|exact Hty].
Defined.

(** An ACCESS_ALLOWED entry with flag byte 0x11 and mask bytes 00 1f 01 ff. *)
Lemma ace_header_and_mask_witness :
  ACE.from_binary (PyBytes inherited_ace_bytes) = OK inherited_ace ∧
  ∃ b0 b1 b2 b3 b4 b5 b6 b7 rest,
    inherited_ace_bytes = b0 :: b1 :: b2 :: b3 :: b4 :: b5 :: b6 :: b7 :: rest ∧
    ACEType_value (ACE.type inherited_ace) = byte_val b0 ∧
    (∀ flg, flg ∈ ACE.flags inherited_ace ↔ Z.land (byte_val b1) (ACEFlag_value flg) ≠ 0) ∧
    ACE.size inherited_ace = byte_val b2 + 2 ^ 8 * byte_val b3 ∧
    ACE.mask inherited_ace = 2 ^ 24 * byte_val b4 + 2 ^ 16 * byte_val b5
                             + 2 ^ 8 * byte_val b6 + byte_val b7.
Proof.
  split; [reflexivity|].
  apply (ace_header_and_mask inherited_ace_bytes inherited_ace). reflexivity.
Defined.

(** C7, counterexample: four bytes with type code 99 fail with the
    malformed-structure error, whose message does not name the type value. *)
Lemma unknown_type_short_buffer :
  ACE.from_binary (S:=SID.t) (PyBytes unknown_type_short_bytes)
  = Raise (Exn ValueError "Not a valid binary ACE, unpack requires a buffer of 4 bytes").
Proof. reflexivity. Qed.

(** Eight bytes with type code 99. *)
Lemma ace_unknown_type_witness :
  (∀ ty, ACEType_value ty ≠ byte_val x63) ∧
  (7 ≤ length [x00; x08; x00; x00; x00; x00; x00])%nat ∧
  ACE.from_binary (S:=SID.t) (PyBytes unknown_type_bytes)
  = Raise (Exn ValueError "99 is not a valid ACEType").
Proof.
  assert (∀ ty, ACEType_value ty ≠ byte_val x63) as Hunknown.
  { intros []; discriminate. }
  split; [exact Hunknown|]. split; [simpl; lia|].
  apply (ace_unknown_type (S:=SID.t) x63 [x00; x08; x00; x00; x00; x00; x00] Hunknown).
  simpl; lia.
Defined.

(** An empty ACL followed by three stray bytes. *)
Lemma acl_no_entries_witness :
  ACLRevision_value ACL_REVISION = byte_val x02 ∧
  byte_val x00 + 256 * byte_val x00 = 0 ∧
  ACL.from_binary (S:=SID.t) (PyBytes acl_empty_bytes)
  = OK (ACL.mk ACL_REVISION (byte_val x00) (byte_val x00 + 256 * byte_val x00) []
          (byte_val x08 + 256 * byte_val x00)) ∧
  ACL.read_aces (S:=SID.t) acl_empty_bytes (Z.to_nat (byte_val x00 + 256 * byte_val x00)) [] 8
  = OK ([], 8).
Proof.
  split; [reflexivity|]. split; [reflexivity|].
  apply (acl_no_entries (S:=SID.t) x02 x00 x08 x00 x00 x00 x00 x00 [xde; xad; xbe]
           ACL_REVISION); reflexivity.
Defined.

(** A [str] argument. *)
Lemma from_binary_rejects_non_bytes_witness :
  (∀ b, PyStr "abc" ≠ PyBytes b) ∧
  ACE.from_binary (S:=SID.t) (PyStr "abc")
  = Raise (Exn TypeError "The `data` parameter must be bytes") ∧
  ACL.from_binary (S:=SID.t) (PyStr "abc")
  = Raise (Exn TypeError "The `data` parameter must be bytes").
Proof.
  assert (∀ b, PyStr "abc" ≠ PyBytes b) as Hnot by (intros b; discriminate).
  split; [exact Hnot|].
  apply (from_binary_rejects_non_bytes (S:=SID.t) (PyStr "abc") Hnot).
Defined.

(** C10, counterexample: the first entry decodes with declared size 0 and the
    ACL declares three entries, yet [ACL.from_binary] fails, on the revision
    byte 0 it checks after the loop. *)
Lemma acl_zero_size_bad_revision :
  ACE.from_binary (PyBytes (drop 8 acl_zero_size_bad_revision_bytes)) = OK zero_size_ace ∧
  ACE.size zero_size_ace = 0 ∧
  ACL.from_binary (S:=SID.t) (PyBytes acl_zero_size_bad_revision_bytes)
  = Raise (Exn ValueError "0 is not a valid ACLRevision").
Proof. repeat split; reflexivity. Qed.

(** Three declared entries, the first of declared size 0, revision 2. *)
Lemma acl_zero_size_entries_witness :
  ACLRevision_value ACL_REVISION = byte_val x02 ∧
  Z.of_nat 3 = byte_val x03 + 256 * byte_val x00 ∧
  (1 ≤ 3)%nat ∧
  ACE.from_binary (PyBytes (drop 8 acl_zero_size_bytes)) = OK zero_size_ace ∧
  ACE.size zero_size_ace = 0 ∧
  ACL.from_binary (PyBytes acl_zero_size_bytes)
  = OK (ACL.mk ACL_REVISION (byte_val x00) (byte_val x00 + 256 * byte_val x00)
          (replicate 3 zero_size_ace) (byte_val x1c + 256 * byte_val x00)) ∧
  ACL.read_aces acl_zero_size_bytes 3 [] 8 = OK (replicate 3 zero_size_ace, 8) ∧
  (∀ i, (i ≤ 3)%nat → loop_reaches acl_zero_size_bytes i (replicate i zero_size_ace) 8).
Proof.
  split; [reflexivity|]. split; [reflexivity|]. split; [lia|].
  split; [reflexivity|]. split; [reflexivity|].
  apply (acl_zero_size_entries x02 x00 x1c x00 x03 x00 x00 x00 zero_size_ace_bytes
           acl_zero_size_bytes zero_size_ace ACL_REVISION 3);
    [reflexivity|reflexivity|reflexivity|lia|reflexivity|reflexivity].
Defined.

(** * Further properties *)

(** ** Sets of enumeration members read off a bit mask *)

Section named_bits.
Context {E : Type} `{Countable E} (value : E → Z) (members : list E) (named : Z).
Hypothesis members_all : ∀ e, e ∈ members.
Hypothesis value_bit : ∀ e, ∃ k, 0 ≤ k ∧ value e = 2 ^ k ∧ Z.testbit named k = true.
Hypothesis named_cover : ∀ n, 0 ≤ n → Z.testbit named n = true → ∃ e, value e = 2 ^ n.

Lemma elem_of_enum_set m e :
  e ∈ enum_set value members m ↔ Z.land m (value e) ≠ 0.
Proof.
  unfold enum_set. rewrite elem_of_list_to_set, list_elem_of_filter.
  split; [by intros [? _]|]. intros Hnz. split; [done|apply members_all].
Qed.

Lemma enum_set_bit m e k :
  0 ≤ k → value e = 2 ^ k →
  e ∈ enum_set value members m ↔ Z.testbit m k = true.
Proof.
  intros Hk Hv. rewrite elem_of_enum_set, Hv. by apply land_pow2_nonzero.
Qed.

Lemma enum_set_eq_iff m m' :
  enum_set value members m = enum_set value members m'
  ↔ Z.land m named = Z.land m' named.
Proof.
  split.
  - intros Heq. apply Z.bits_inj'. intros n Hn. rewrite !Z.land_spec.
    destruct (Z.testbit named n) eqn:Hb; [|by rewrite !andb_false_r].
    rewrite !andb_true_r. destruct (named_cover n Hn Hb) as [e He].
    apply Bool.eq_iff_eq_true.
    rewrite <- !(enum_set_bit _ e n Hn He). by rewrite Heq.
  - intros Hl. apply set_eq. intros e.
    destruct (value_bit e) as (k & Hk & Hv & Hb).
    rewrite !(enum_set_bit _ e k Hk Hv).
    assert (Z.testbit (Z.land m named) k = Z.testbit (Z.land m' named) k) as Ht
      by (by rewrite Hl).
    rewrite !Z.land_spec, Hb, !andb_true_r in Ht. by rewrite Ht.
Qed.

Lemma enum_set_empty_iff m :
  enum_set value members m = ∅ ↔ Z.land m named = 0.
Proof.
  assert (enum_set value members 0 = ∅) as H0.
  { apply set_eq. intros e. rewrite elem_of_enum_set, Z.land_0_l.
    split; [done|]. intros []%not_elem_of_empty. }
  rewrite <- H0, enum_set_eq_iff. by rewrite Z.land_0_l.
Qed.

End named_bits.

Lemma bits_above_32 c n : 0 ≤ c < 2 ^ 32 → 32 ≤ n → Z.testbit c n = false.
Proof.
  intros Hc Hn. destruct (decide (c = 0)) as [->|Hnz]; [apply Z.bits_0|].
  apply Z.bits_above_log2; [lia|].
  assert (Z.log2 c < 32); [apply Z.log2_lt_pow2; lia|lia].
Qed.

(** Case analysis on a bit position [n] with [Hbit : Z.testbit c n = true] for
    a 32-bit constant [c]: [tac] is run for each bit of [c] that is set. *)
Ltac bit_cases n Hbit tac :=
  let Hcases := fresh "Hcases" in
  assert (32 ≤ n ∨ n = 0 ∨ n = 1 ∨ n = 2 ∨ n = 3 ∨ n = 4 ∨ n = 5 ∨ n = 6 ∨ n = 7
          ∨ n = 8 ∨ n = 9 ∨ n = 10 ∨ n = 11 ∨ n = 12 ∨ n = 13 ∨ n = 14 ∨ n = 15
          ∨ n = 16 ∨ n = 17 ∨ n = 18 ∨ n = 19 ∨ n = 20 ∨ n = 21 ∨ n = 22
          ∨ n = 23 ∨ n = 24 ∨ n = 25 ∨ n = 26 ∨ n = 27 ∨ n = 28 ∨ n = 29
          ∨ n = 30 ∨ n = 31) as Hcases by lia;
  destruct Hcases as [Hcases|Hcases];
  [ rewrite bits_above_32 in Hbit by (try exact Hcases; vm_compute; split; congruence);
    discriminate Hbit
  | repeat (destruct Hcases as [Hcases|Hcases]); subst n;
    first [ discriminate Hbit | tac ] ].

Lemma ACEFlag_members_all flg : flg ∈ ACEFlag_members.
Proof. apply list_elem_of_In. destruct flg; simpl; tauto. Qed.

Lemma ACERight_members_all rgt : rgt ∈ ACERight_members.
Proof. apply list_elem_of_In. destruct rgt; simpl; tauto. Qed.

Lemma ACEFlag_value_bit flg :
  ∃ k, 0 ≤ k ∧ ACEFlag_value flg = 2 ^ k ∧ Z.testbit named_flag_bits k = true.
Proof.
  destruct flg;
    [exists 0|exists 1|exists 2|exists 3|exists 4|exists 6|exists 7];
    (split; [lia|split; reflexivity]).
Qed.

Lemma ACERight_value_bit rgt :
  ∃ k, 0 ≤ k ∧ ACERight_value rgt = 2 ^ k ∧ Z.testbit named_right_bits k = true.
Proof.
  destruct rgt;
    [exists 31|exists 26|exists 29|exists 28|exists 25|exists 24|exists 20
    |exists 19|exists 18|exists 17|exists 16|exists 8|exists 0|exists 1
    |exists 2|exists 3|exists 4|exists 5|exists 6|exists 7];
    (split; [lia|split; reflexivity]).
Qed.

Lemma named_flag_bits_cover n :
  0 ≤ n → Z.testbit named_flag_bits n = true → ∃ flg, ACEFlag_value flg = 2 ^ n.
Proof.
  intros Hn Hbit.
  bit_cases n Hbit
    ltac:(first [by exists OBJECT_INHERIT | by exists CONTAINER_INHERIT
                |by exists NO_PROPAGATE_INHERIT | by exists INHERIT_ONLY
                |by exists INHERITED | by exists SUCCESSFUL_ACCESS
                |by exists FAILED_ACCESS]).
Qed.

Lemma named_right_bits_cover n :
  0 ≤ n → Z.testbit named_right_bits n = true → ∃ rgt, ACERight_value rgt = 2 ^ n.
Proof.
  intros Hn Hbit.
  bit_cases n Hbit
    ltac:(idtac; lazymatch goal with
          | |- ex (fun rgt => ACERight_value rgt = 2 ^ ?k) =>
              let r := eval vm_compute in
                    (enum_of_value ACERight_value ACERight_members (2 ^ k)) in
              lazymatch r with
              | Some ?rgt => exists rgt; reflexivity
              end
          end).
Qed.

Section set_properties.
Context {S : Type} `{!SIDLike S}.

(** X1: the rights of an entry are an exact image of the mask bits that have
    a member of [ACERight] (0xB71F01FF): two entries have the same rights iff
    their masks agree on those bits, and an entry has no rights iff its mask
    has none of them. Every other bit of the mask, 0x40000000 among them, is
    invisible in [rights]. *)
Theorem ace_rights_named_bits (a a' : ACE.t S) :
  (ACE.rights a = ACE.rights a'
   ↔ Z.land (ACE.mask a) named_right_bits = Z.land (ACE.mask a') named_right_bits) ∧
  (ACE.rights a = ∅ ↔ Z.land (ACE.mask a) named_right_bits = 0) ∧
  (∀ n, 0 ≤ n →
     Z.testbit named_right_bits n = true ↔ ∃ rgt, ACERight_value rgt = 2 ^ n).
Proof.
  split; [|split].
  - apply (enum_set_eq_iff ACERight_value ACERight_members named_right_bits
             ACERight_members_all ACERight_value_bit named_right_bits_cover).
  - apply (enum_set_empty_iff ACERight_value ACERight_members named_right_bits
             ACERight_members_all ACERight_value_bit named_right_bits_cover).
  - intros n Hn. split; [by apply named_right_bits_cover|].
    intros [rgt Hv]. destruct (ACERight_value_bit rgt) as (k & Hk & Hv' & Hb).
    rewrite Hv in Hv'. apply Z.pow_inj_r in Hv'; [by subst|lia..].
Qed.

(** X2: the flags of a decoded entry are an exact image of the bits of byte 1
    that have a member of [ACEFlag] (0xDF): two decoded entries have the same
    flags iff their flag bytes agree on those bits, and the set is empty iff
    the byte has none of them. Bit 0x20 of the flag byte is dropped. *)
Theorem ace_flags_named_bits (data data' : bytes) (b1 b1' : byte) (ace ace' : ACE.t S) :
  ACE.from_binary (PyBytes data) = OK ace →
  ACE.from_binary (PyBytes data') = OK ace' →
  data !! 1%nat = Some b1 →
  data' !! 1%nat = Some b1' →
  (ACE.flags ace = ACE.flags ace'
   ↔ Z.land (byte_val b1) named_flag_bits = Z.land (byte_val b1') named_flag_bits) ∧
  (ACE.flags ace = ∅ ↔ Z.land (byte_val b1) named_flag_bits = 0).
Proof.
  intros (? & c1 & ? & ? & ? & ? & ? & ? & ? & ? & -> & _ & _ & _ & -> & _)%ace_from_binary_OK.
  intros (? & c1' & ? & ? & ? & ? & ? & ? & ? & ? & -> & _ & _ & _ & -> & _)%ace_from_binary_OK.
  intros [= ->] [= ->]. split.
  - apply (enum_set_eq_iff ACEFlag_value ACEFlag_members named_flag_bits
             ACEFlag_members_all ACEFlag_value_bit named_flag_bits_cover).
  - apply (enum_set_empty_iff ACEFlag_value ACEFlag_members named_flag_bits
             ACEFlag_members_all ACEFlag_value_bit named_flag_bits_cover).
Qed.

End set_properties.

(** ** Further properties of [ACE.from_binary] *)

Section ace_more.
Context {S : Type} `{!SIDLike S}.

Lemma field_full (off len : Z) (data : bytes) :
  0 ≤ off → 0 < len →
  length (field off len data) = Z.to_nat len →
  off + len ≤ Z.of_nat (length data).
Proof.
  intros Hoff Hlen. unfold field. rewrite length_take, length_drop. lia.
Qed.

Lemma UUID_bytes_le_short buf :
  length buf ≠ 16%nat → UUID_bytes_le buf = Raise guid_error.
Proof. intros Hlen. unfold UUID_bytes_le. by rewrite bool_decide_eq_false_2. Qed.

Lemma le_int_4 f0 f1 f2 f3 :
  pystruct.le_int [f0; f1; f2; f3]
  = byte_val f0 + 2 ^ 8 * byte_val f1 + 2 ^ 16 * byte_val f2 + 2 ^ 24 * byte_val f3.
Proof. unfold pystruct.le_int. lia. Qed.

Lemma le_int_2 f0 f1 : pystruct.le_int [f0; f1] = byte_val f0 + 256 * byte_val f1.
Proof. unfold pystruct.le_int. lia. Qed.

Lemma bit_test obj_flag k :
  0 ≤ k → bool_decide (Z.land obj_flag (2 ^ k) ≠ 0) = Z.testbit obj_flag k.
Proof.
  intros Hk. pose proof (land_pow2_nonzero obj_flag k Hk) as Hiff.
  destruct (Z.testbit obj_flag k).
  - apply bool_decide_eq_true_2. by apply Hiff.
  - apply bool_decide_eq_false_2. intros Hnz. by apply Hiff in Hnz.
Qed.

(** X3: a decoded entry has a mask below 2^32 and a size below 2^16, and the
    buffer it came from holds all the fixed fields and GUIDs the entry has:
    at least [trustee_offset] bytes. *)
Theorem ace_decoded_bounds (data : bytes) (ace : ACE.t S) :
  ACE.from_binary (PyBytes data) = OK ace →
  0 ≤ ACE.mask ace < 2 ^ 32 ∧
  0 ≤ ACE.size ace < 2 ^ 16 ∧
  trustee_offset ace ≤ Z.of_nat (length data).
Proof.
  intros (b0 & b1 & b2 & b3 & b4 & b5 & b6 & b7 & rest & pos & Hdata & _ & Hobj
          & _ & _ & Hmask & Hsize & _)%ace_from_binary_OK.
  pose proof (byte_val_range b2). pose proof (byte_val_range b3).
  pose proof (byte_val_range b4). pose proof (byte_val_range b5).
  pose proof (byte_val_range b6). pose proof (byte_val_range b7).
  split; [|split].
  - rewrite Hmask. unfold pystruct.be_int, pystruct.le_int; simpl. lia.
  - rewrite Hsize. unfold pystruct.le_int. lia.
  - pose proof (ace_cursor data ace pos Hobj) as <-.
    destruct (bool_decide (ACE.type ace ∈ ACE.object_types)).
    + apply read_object_fields_OK in Hobj as (obj_flag & Hflag & Hot & Hiot & ->).
      apply unpack_I_le_OK in Hflag as (f0 & f1 & f2 & f3 & Hfield & _).
      assert (12 ≤ Z.of_nat (length data)) as H12.
      { apply (field_full 8 4); [lia|lia|by rewrite Hfield]. }
      assert (12 + guid_len (ACE.object_type ace) ≤ Z.of_nat (length data)) as Hg1.
      { destruct (bool_decide (Z.land obj_flag 1 ≠ 0)).
        - destruct Hot as (u & Hu%UUID_bytes_le_OK & ->). simpl.
          apply (field_full 12 16) in Hu; lia.
        - rewrite Hot. simpl. lia. }
      pose proof (guid_len_nonneg (ACE.object_type ace)).
      destruct (bool_decide (Z.land obj_flag 2 ≠ 0)).
      * destruct Hiot as (u & Hu%UUID_bytes_le_OK & ->). simpl.
        apply (field_full (12 + guid_len (ACE.object_type ace)) 16) in Hu; lia.
      * rewrite Hiot. simpl. lia.
    + destruct Hobj as (_ & _ & ->). rewrite Hdata. simpl. lia.
Qed.

(** X4: a captured [application_data] has
    [max 0 (min size len(data) - payload_offset)] bytes: it stops at the end
    of the buffer when the declared size lies beyond it, and when the declared
    size does not reach past the trustee it is present and empty. *)
Theorem ace_payload_length (data payload : bytes) (ace : ACE.t S) :
  ACE.from_binary (PyBytes data) = OK ace →
  ACE.application_data ace = Some payload →
  Z.of_nat (length payload)
  = Z.max 0 (Z.min (ACE.size ace) (Z.of_nat (length data)) - payload_offset ace) ∧
  (ACE.size ace ≤ payload_offset ace → payload = []).
Proof.
  intros Hok Hp.
  pose proof Hok as (b0 & b1 & b2 & b3 & b4 & b5 & b6 & b7 & rest & pos & _ & _ & Hobj
          & _ & _ & _ & Hsize & Happ)%ace_from_binary_OK.
  apply ace_cursor in Hobj as ->.
  pose proof (trustee_offset_bounds ace).
  assert (0 ≤ ACE.size ace) as Hnn.
  { rewrite Hsize. pose proof (byte_val_range b2). pose proof (byte_val_range b3).
    unfold pystruct.le_int. lia. }
  rewrite Hp in Happ.
  destruct (bool_decide (ACE.type ace ∈ ACE.application_data_types)); [|done].
  injection Happ as ->. rewrite slice_range by lia.
  assert (payload_offset ace
          = trustee_offset ace
            + (8 + Z.of_nat (length (SID_subauthorities (ACE.trustee_sid ace))) * 4)) as <-.
  { unfold payload_offset. lia. }
  assert (0 ≤ payload_offset ace) by (unfold payload_offset; lia).
  split.
  - rewrite length_drop, length_take. lia.
  - intros Hle. apply nil_length_inv. rewrite length_drop, length_take. lia.
Qed.

(** X5: an object-variant entry whose object flags announce more GUID bytes
    than follow them in the buffer fails with the [ValueError] of [uuid.UUID],
    which passes through [ACE.from_binary] without the "Not a valid binary
    ACE" text. *)
Theorem ace_guid_truncated (b0 b1 b2 b3 b4 b5 b6 b7 f0 f1 f2 f3 : byte) (rest : bytes)
    (ty : ACEType) (obj_flag : Z) :
  ACEType_value ty = byte_val b0 →
  ty ∈ object_family →
  obj_flag = byte_val f0 + 2 ^ 8 * byte_val f1 + 2 ^ 16 * byte_val f2
             + 2 ^ 24 * byte_val f3 →
  Z.of_nat (length rest)
  < (if Z.testbit obj_flag 0 then 16 else 0) + (if Z.testbit obj_flag 1 then 16 else 0) →
  ACE.from_binary (S:=S)
    (PyBytes (b0 :: b1 :: b2 :: b3 :: b4 :: b5 :: b6 :: b7 :: f0 :: f1 :: f2 :: f3 :: rest))
  = Raise guid_error.
Proof.
  intros Hval Hty Hflag Hlen.
  unfold ACE.from_binary. rewrite ace_body_long.
  assert (ACEType_call (byte_val b0) = OK ty) as ->.
  { rewrite <- Hval. clear. by destruct ty. }
  cbn [mbind result_bind]. change ACE.object_types with object_family.
  rewrite (bool_decide_eq_true_2 (ty ∈ object_family)) by done.
  unfold ACE.read_object_fields.
  change (8 + 4 + 16) with 28. change (8 + 4) with 12.
  rewrite (slice_field 8 4) by lia.
  unfold field at 1. change (Z.to_nat 8) with 8%nat. change (Z.to_nat 4) with 4%nat.
  cbn [drop take]. change (take 0 rest) with (@nil byte).
  cbn [pystruct.unpack_I_le mbind result_bind].
  rewrite le_int_4, <- Hflag.
  pose proof (bit_test obj_flag 0) as Hb0. pose proof (bit_test obj_flag 1) as Hb1.
  change (2 ^ 0) with 1 in Hb0. change (2 ^ 1) with 2 in Hb1.
  rewrite Hb0, Hb1 by lia. clear Hb0 Hb1.
  destruct (Z.testbit obj_flag 0).
  - rewrite (slice_field 12 16) by lia. unfold field at 1.
    change (Z.to_nat 12) with 12%nat. change (Z.to_nat 16) with 16%nat. cbn [drop].
    change (drop 0 rest) with rest.
    destruct (decide (length rest < 16)%nat) as [Hshort|Hlong].
    { rewrite UUID_bytes_le_short by (rewrite length_take; lia). reflexivity. }
    destruct (UUID_bytes_le (take 16 rest)) as [u|e] eqn:Hu.
    2:{ unfold UUID_bytes_le in Hu. rewrite bool_decide_eq_true_2 in Hu; [done|].
        rewrite length_take. lia. }
    cbn [mbind result_bind].
    destruct (Z.testbit obj_flag 1); [|lia].
    rewrite (slice_field 28 16) by lia. unfold field at 1.
    change (Z.to_nat 28) with 28%nat. change (Z.to_nat 16) with 16%nat. cbn [drop].
    rewrite UUID_bytes_le_short; [reflexivity|].
    rewrite length_take, length_drop. lia.
  - cbn [mbind result_bind]. destruct (Z.testbit obj_flag 1); [|lia].
    rewrite (slice_field 12 16) by lia. unfold field at 1.
    change (Z.to_nat 12) with 12%nat. change (Z.to_nat 16) with 16%nat. cbn [drop].
    change (drop 0 rest) with rest.
    rewrite UUID_bytes_le_short; [reflexivity|].
    rewrite length_take. lia.
Qed.

Lemma UUID_bytes_le_Raise buf e : UUID_bytes_le buf = Raise e → e = guid_error.
Proof.
  unfold UUID_bytes_le.
  destruct (bool_decide _); intros Heq; [discriminate Heq|]. by injection Heq as <-.
Qed.

Lemma read_object_fields_Raise (data : bytes) e :
  ACE.read_object_fields data 8 = Raise e → exn_kind e = StructError ∨ e = guid_error.
Proof.
  unfold ACE.read_object_fields. intros H.
  destruct (pystruct.unpack_I_le _) as [obj_flag|e0] eqn:Hflag;
    cbn [mbind result_bind] in H.
  2:{ injection H as Heq. subst e0. left. revert Hflag.
      generalize (slice (Some 8) (Some 12) data).
      intros [|? [|? [|? [|? [|? ?]]]]]; simpl; intros [= Heq];
        rewrite <- Heq; reflexivity. }
  pose proof UUID_bytes_le_Raise as Huuid.
  destruct (bool_decide (Z.land obj_flag 1 ≠ 0)).
  - destruct (UUID_bytes_le _) as [u|e1] eqn:Hu; cbn [mbind result_bind] in H.
    2:{ injection H as <-. right. by eapply Huuid. }
    destruct (bool_decide (Z.land obj_flag 2 ≠ 0)); [|discriminate H].
    destruct (UUID_bytes_le _) as [u'|e2] eqn:Hu' in H;
      cbn [mbind result_bind] in H; [discriminate H|].
    injection H as <-. right. by eapply Huuid.
  - cbn [mbind result_bind] in H.
    destruct (bool_decide (Z.land obj_flag 2 ≠ 0)); [|discriminate H].
    destruct (UUID_bytes_le _) as [u'|e2] eqn:Hu';
      cbn [mbind result_bind] in H; [discriminate H|].
    injection H as <-. right. by eapply Huuid.
Qed.

(** Every failure of [ACE.from_binary] on a [bytes] value is a [ValueError],
    or the exception the trustee constructor raised. *)
Lemma ace_raise_cases (data : bytes) (e : exn) :
  ACE.from_binary (PyBytes data) = Raise e →
  exn_kind e = ValueError ∨
  (exn_kind e ≠ StructError ∧ ∃ d, SID_bytes_le (S:=S) d = Raise e).
Proof.
  intros H. pose proof (except_struct_error_kind _ _ _ H) as Hkind.
  unfold ACE.from_binary in H.
  destruct (decide (length data < 8)%nat) as [Hs|Hl].
  { rewrite ace_body_short in H by done. injection H as <-. by left. }
  do 8 (destruct data as [|? data]; [simpl in Hl; lia|]). clear Hl.
  rewrite ace_body_long in H.
  destruct (ACEType_call _) as [ty|e0] eqn:Hty; cbn [mbind result_bind] in H.
  2:{ unfold ACEType_call, enum_call in Hty.
      destruct (List.find _ _); [discriminate Hty|].
      injection Hty as <-. injection H as <-. by left. }
  destruct (if bool_decide (ty ∈ ACE.object_types) then _ else _)
    as [[[ot iot] pos]|e0] eqn:Hobj; cbn [mbind result_bind] in H.
  2:{ destruct (bool_decide (ty ∈ ACE.object_types)); [|discriminate Hobj].
      apply read_object_fields_Raise in Hobj as [Hk| ->].
      - destruct e0 as [[] ?]; try discriminate Hk.
        simpl in H. injection H as <-. by left.
      - injection H as <-. by left. }
  destruct (SID_bytes_le _) as [sid|e0] eqn:Hsid;
    cbn [mbind result_bind] in H; [discriminate H|].
  destruct e0 as [k msg]. destruct k; simpl in H; injection H as <-;
    first [by left | right; split; [done|eauto]].
Qed.

End ace_more.

(** ** The declared size of an entry is checked against nothing *)

Section ace_size_unchecked.
Context {S : Type} `{!SIDLike S}.

Lemma clamp_range len i : 0 ≤ len → 0 ≤ clamp len i ≤ len.
Proof. intros Hlen. unfold clamp. destruct (Z.ltb_spec i 0); lia. Qed.








End ace_size_unchecked.


(** ** Further properties of [ACL.from_binary] *)

Section acl_more.
Context {S : Type} `{!SIDLike S}.

Lemma acl_body_short (data : bytes) :
  (length data < 8)%nat →
  ACL.from_binary_body (S:=S) (PyBytes data) = Raise (pystruct.error 8).
Proof.
  intros Hlen.
  do 8 (destruct data as [|? data]; [reflexivity|]).
  simpl in Hlen. lia.
Qed.

Lemma sizes_sum_nonneg (data : bytes) (aces : list (ACE.t S)) :
  (∀ ace, ace ∈ aces → ∃ d, ACE.from_binary (PyBytes d) = OK ace) →
  0 ≤ sizes_sum aces.
Proof.
  induction aces as [|ace aces IH]; intros Hall; simpl; [lia|].
  destruct (Hall ace) as [d Hd%ace_size_nonneg]; [by left|].
  assert (0 ≤ sizes_sum aces); [|lia].
  apply IH. intros a Ha. apply Hall. by right.
Qed.

Lemma read_aces_OK (data : bytes) n acc start_pos (aces : list (ACE.t S)) end_pos :
  0 ≤ start_pos →
  ACL.read_aces data n acc start_pos = OK (aces, end_pos) →
  ∃ new,
    aces = acc ++ new ∧ length new = n ∧ end_pos = start_pos + sizes_sum new ∧
    ∀ i ace, new !! i = Some ace →
      ACE.from_binary
        (PyBytes (drop (Z.to_nat (start_pos + sizes_sum (take i new))) data)) = OK ace.
Proof.
  revert acc start_pos. induction n as [|n IH]; intros acc start_pos Hpos H.
  - injection H as <- <-. exists []. rewrite app_nil_r. simpl.
    split; [done|]. split; [done|]. split; [lia|]. intros i ace Hi. done.
  - cbn [ACL.read_aces] in H. rewrite slice_from in H by done.
    destruct (ACE.from_binary _) as [ace0|] eqn:Hace;
      cbn [mbind result_bind] in H; [|discriminate H].
    pose proof (ace_size_nonneg _ _ Hace) as Hsize.
    apply IH in H as (new & -> & Hlen & -> & Hat); [|lia].
    exists (ace0 :: new). rewrite <- app_assoc. simpl.
    split; [done|]. split; [by rewrite Hlen|]. split; [lia|].
    intros [|i] ace Hi; simpl in *.
    + injection Hi as <-. by rewrite Z.add_0_r.
    + apply Hat in Hi. rewrite <- Hi. do 3 f_equal. lia.
Qed.

Lemma read_aces_Raise (data : bytes) n (acc : list (ACE.t S)) start_pos e :
  ACL.read_aces data n acc start_pos = Raise e →
  ∃ d, ACE.from_binary (S:=S) (PyBytes d) = Raise e.
Proof.
  revert acc start_pos. induction n as [|n IH]; intros acc start_pos H; [discriminate H|].
  cbn [ACL.read_aces] in H.
  destruct (ACE.from_binary _) as [ace0|e0] eqn:Hace; cbn [mbind result_bind] in H.
  - by eapply IH.
  - injection H as <-. eauto.
Qed.

Lemma read_aces_fails_at (data : bytes) i n (aces : list (ACE.t S)) start_pos e :
  loop_reaches data i aces start_pos →
  ACE.from_binary (PyBytes (drop (Z.to_nat start_pos) data)) = Raise e →
  (i < n)%nat →
  ACL.read_aces data n [] 8 = Raise e.
Proof.
  intros [Hpos Hloop]%loop_reaches_read_aces Hfail Hlt.
  replace n with (i + Datatypes.S (n - Datatypes.S i))%nat by lia.
  rewrite read_aces_add, Hloop. cbn [mbind result_bind ACL.read_aces].
  rewrite slice_from by lia. by rewrite Hfail.
Qed.

Lemma acl_read_aces_Raise r s1 z0 z1 c0 c1 y0 y1 rest e :
  ACL.read_aces (S:=S) (r :: s1 :: z0 :: z1 :: c0 :: c1 :: y0 :: y1 :: rest)
    (Z.to_nat (pystruct.le_int [c0; c1])) [] 8 = Raise e →
  exn_kind e ≠ StructError →
  ACL.from_binary (S:=S) (PyBytes (r :: s1 :: z0 :: z1 :: c0 :: c1 :: y0 :: y1 :: rest))
  = Raise e.
Proof.
  intros Hloop Hkind. unfold ACL.from_binary.
  apply except_struct_error_passes; [|done].
  by rewrite acl_body_long, Hloop.
Qed.

Lemma acl_from_binary_OK (data : bytes) (acl : ACL.t S) :
  ACL.from_binary (PyBytes data) = OK acl →
  ∃ r s1 z0 z1 c0 c1 y0 y1 rest end_pos,
    data = r :: s1 :: z0 :: z1 :: c0 :: c1 :: y0 :: y1 :: rest ∧
    ACL.read_aces data (Z.to_nat (pystruct.le_int [c0; c1])) [] 8
    = OK (ACL.aces acl, end_pos) ∧
    ACLRevision_call (byte_val r) = OK (ACL.revision acl) ∧
    ACL.sbz1 acl = byte_val s1 ∧
    ACL.sbz2 acl = pystruct.le_int [y0; y1] ∧
    ACL.size acl = pystruct.le_int [z0; z1].
Proof.
  intros H%except_struct_error_OK.
  destruct (decide (length data < 8)%nat) as [Hs|Hl].
  { rewrite acl_body_short in H by done. discriminate H. }
  do 8 (destruct data as [|? data]; [simpl in Hl; lia|]). clear Hl.
  rewrite acl_body_long in H.
  destruct (ACL.read_aces _ _ _ _) as [[aces end_pos]|] eqn:Hloop;
    cbn [mbind result_bind] in H; [|discriminate H].
  destruct (ACLRevision_call _) as [rev|] eqn:Hrev;
    cbn [mbind result_bind] in H; [|discriminate H].
  injection H as <-. simpl. do 9 eexists. exists end_pos. done.
Qed.

(** X6: on a [bytes] argument neither decoder lets a [struct.error] out:
    every failure of [ACE.from_binary] or [ACL.from_binary] is a [ValueError],
    or else the very exception that the trustee constructor raised. *)
Theorem from_binary_failure_kind (data : bytes) (e : exn) :
  ACE.from_binary (S:=S) (PyBytes data) = Raise e
  ∨ ACL.from_binary (S:=S) (PyBytes data) = Raise e →
  exn_kind e = ValueError ∨
  (exn_kind e ≠ StructError ∧ ∃ d, SID_bytes_le (S:=S) d = Raise e).
Proof.
  intros [H|H]; [by apply ace_raise_cases in H|].
  unfold ACL.from_binary in H.
  destruct (decide (length data < 8)%nat) as [Hs|Hl].
  { rewrite acl_body_short in H by done. injection H as <-. by left. }
  do 8 (destruct data as [|? data]; [simpl in Hl; lia|]). clear Hl.
  rewrite acl_body_long in H.
  destruct (ACL.read_aces _ _ _ _) as [[aces end_pos]|e0] eqn:Hloop;
    cbn [mbind result_bind] in H.
  - unfold ACLRevision_call, enum_call in H.
    destruct (List.find _ _); cbn [mbind result_bind] in H; [discriminate H|].
    injection H as <-. by left.
  - apply read_aces_Raise in Hloop as [d Hd].
    pose proof (except_struct_error_kind _ _ _ Hd) as Hkind.
    rewrite (except_struct_error_passes _ _ e0) in H by done.
    injection H as <-. by apply ace_raise_cases in Hd.
Qed.

(** X7: a decoded ACL has a revision of value 2 or 4 equal to byte 0, its
    [sbz1], [size] and [sbz2] are bytes 1, 2-3 and 6-7 of the header, and it
    holds exactly as many entries as bytes 4-5 declare. *)
Theorem acl_decoded_header (data : bytes) (acl : ACL.t S) :
  ACL.from_binary (PyBytes data) = OK acl →
  ∃ r s1 z0 z1 c0 c1 y0 y1 rest,
    data = r :: s1 :: z0 :: z1 :: c0 :: c1 :: y0 :: y1 :: rest ∧
    ACLRevision_value (ACL.revision acl) = byte_val r ∧
    (byte_val r = 2 ∨ byte_val r = 4) ∧
    ACL.sbz1 acl = byte_val s1 ∧
    ACL.size acl = byte_val z0 + 256 * byte_val z1 ∧
    Z.of_nat (length (ACL.aces acl)) = byte_val c0 + 256 * byte_val c1 ∧
    ACL.sbz2 acl = byte_val y0 + 256 * byte_val y1.
Proof.
  intros (r & s1 & z0 & z1 & c0 & c1 & y0 & y1 & rest & end_pos & -> & Hloop
          & Hrev & -> & -> & ->)%acl_from_binary_OK.
  exists r, s1, z0, z1, c0, c1, y0, y1, rest.
  apply enum_call_OK in Hrev as [Hrev _].
  apply read_aces_OK in Hloop as (new & Hnew & Hlen & _); [|lia].
  simpl in Hnew. subst new.
  pose proof (byte_val_range c0). pose proof (byte_val_range c1).
  rewrite !le_int_2. repeat split; try done.
  - rewrite <- Hrev. destruct (ACL.revision acl); simpl; lia.
  - rewrite Hlen, le_int_2. lia.
Qed.

(** X8: in a decoded ACL, entry [i] is what [ACE.from_binary] returns on the
    buffer from offset 8 plus the declared sizes of the entries before it:
    the entries are decoded in order, each where the previous one said it
    ended. *)
Theorem acl_entries_at_offsets (data : bytes) (acl : ACL.t S) (i : nat) (ace : ACE.t S) :
  ACL.from_binary (PyBytes data) = OK acl →
  ACL.aces acl !! i = Some ace →
  ACE.from_binary
    (PyBytes (drop (Z.to_nat (8 + sizes_sum (take i (ACL.aces acl)))) data)) = OK ace.
Proof.
  intros (r & s1 & z0 & z1 & c0 & c1 & y0 & y1 & rest & end_pos & _ & Hloop
          & _)%acl_from_binary_OK Hi.
  apply read_aces_OK in Hloop as (new & Hnew & _ & _ & Hat); [|lia].
  simpl in Hnew. subst new. by apply Hat.
Qed.

(** X9: a buffer shorter than the 8-byte header, the empty one included,
    fails with the [ValueError] made from the unpacking error. *)
Theorem acl_short_header (data : bytes) :
  (length data < 8)%nat →
  ACL.from_binary (S:=S) (PyBytes data) = Raise malformed_acl.
Proof.
  intros Hlen. unfold ACL.from_binary. by rewrite acl_body_short.
Qed.

(** X10: a buffer whose revision byte is neither 2 nor 4 never decodes. The
    revision is looked at after the loop: when all declared entries decode,
    the failure is the [ValueError] naming the revision value. *)
Theorem acl_unknown_revision (r s1 z0 z1 c0 c1 y0 y1 : byte) (rest data : bytes) :
  data = r :: s1 :: z0 :: z1 :: c0 :: c1 :: y0 :: y1 :: rest →
  (∀ rev, ACLRevision_value rev ≠ byte_val r) →
  (∀ acl : ACL.t S, ACL.from_binary (PyBytes data) ≠ OK acl) ∧
  (∀ (aces : list (ACE.t S)) end_pos,
     loop_reaches data (Z.to_nat (byte_val c0 + 256 * byte_val c1)) aces end_pos →
     ACL.from_binary (S:=S) (PyBytes data)
     = Raise (Exn ValueError (pretty (byte_val r) +:+ " is not a valid ACLRevision"))).
Proof.
  intros Hdata Hunknown. split.
  - intros acl (? & ? & ? & ? & ? & ? & ? & ? & ? & ? & Heq & _ & Hrev & _)%acl_from_binary_OK.
    rewrite Hdata in Heq. injection Heq as <- _.
    apply enum_call_OK in Hrev as [Hrev _]. by apply Hunknown in Hrev.
  - intros aces end_pos [_ Hloop]%loop_reaches_read_aces.
    unfold ACL.from_binary. rewrite Hdata, acl_body_long, <- Hdata.
    rewrite (le_int_2 c0 c1), Hloop. cbn [mbind result_bind].
    unfold ACLRevision_call, enum_call.
    destruct (List.find _ _) as [rev|] eqn:Hfind; [|reflexivity].
    apply find_some in Hfind as [_ Heq%Z.eqb_eq]. by apply Hunknown in Heq.
Qed.

Lemma read_aces_past_header (h0 h1 h2 h3 h4 h5 h6 h7 k0 k1 k2 k3 k4 k5 k6 k7 : byte)
    (rest : bytes) n (acc : list (ACE.t S)) start_pos :
  8 ≤ start_pos →
  ACL.read_aces (h0 :: h1 :: h2 :: h3 :: h4 :: h5 :: h6 :: h7 :: rest) n acc start_pos
  = ACL.read_aces (k0 :: k1 :: k2 :: k3 :: k4 :: k5 :: k6 :: k7 :: rest) n acc start_pos.
Proof.
  revert acc start_pos. induction n as [|n IH]; intros acc start_pos Hpos; [done|].
  cbn [ACL.read_aces]. rewrite !slice_from by lia.
  replace (Z.to_nat start_pos) with (8 + Z.to_nat (start_pos - 8))%nat by lia.
  cbn [Nat.add drop].
  destruct (ACE.from_binary _) as [ace|] eqn:Hace; [|reflexivity].
  cbn [mbind result_bind]. apply IH. apply ace_size_nonneg in Hace. lia.
Qed.

(** X11: the declared [aclSize] and the two reserved fields are copied into
    the result and checked against nothing: with any other values in bytes 1,
    2-3 and 6-7 the buffer decodes to the same revision and entries. *)
Theorem acl_header_unchecked (r s1 z0 z1 c0 c1 y0 y1 s1' z0' z1' y0' y1' : byte)
    (rest : bytes) (acl : ACL.t S) :
  ACL.from_binary (PyBytes (r :: s1 :: z0 :: z1 :: c0 :: c1 :: y0 :: y1 :: rest)) = OK acl →
  ACL.from_binary (PyBytes (r :: s1' :: z0' :: z1' :: c0 :: c1 :: y0' :: y1' :: rest))
  = OK (ACL.mk (ACL.revision acl) (byte_val s1') (byte_val y0' + 256 * byte_val y1')
          (ACL.aces acl) (byte_val z0' + 256 * byte_val z1')).
Proof.
  intros (? & ? & ? & ? & ? & ? & ? & ? & ? & end_pos & Heq & Hloop & Hrev
          & _)%acl_from_binary_OK.
  injection Heq as <- <- <- <- <- <- <- <- <-.
  unfold ACL.from_binary. rewrite acl_body_long.
  rewrite (read_aces_past_header r s1' z0' z1' c0 c1 y0' y1' r s1 z0 z1 c0 c1 y0 y1)
    by lia.
  rewrite Hloop. cbn [mbind result_bind]. rewrite Hrev. cbn [mbind result_bind].
  by rewrite !le_int_2.
Qed.

(** X12: an ACL that declares more entries than its buffer holds is a
    failure, not a shorter list: when fewer than 8 bytes are left at the
    cursor and an entry is still due, [ACL.from_binary] raises the
    malformed-structure error of [ACE.from_binary]. *)
Theorem acl_truncated (r s1 z0 z1 c0 c1 y0 y1 : byte) (rest data : bytes)
    (i : nat) (aces : list (ACE.t S)) (start_pos : Z) :
  data = r :: s1 :: z0 :: z1 :: c0 :: c1 :: y0 :: y1 :: rest →
  Z.of_nat i < byte_val c0 + 256 * byte_val c1 →
  loop_reaches data i aces start_pos →
  Z.of_nat (length data) < start_pos + 8 →
  ACL.from_binary (PyBytes data) = Raise malformed_ace.
Proof.
  intros Hdata Hcount Hloop Hleft.
  pose proof (loop_reaches_read_aces _ _ _ _ Hloop) as [Hpos _].
  assert (ACE.from_binary (S:=S) (PyBytes (drop (Z.to_nat start_pos) data))
          = Raise malformed_ace) as Hfail.
  { apply ace_from_binary_short. rewrite length_drop. lia. }
  rewrite Hdata. apply acl_read_aces_Raise; [|done].
  rewrite <- Hdata. apply (read_aces_fails_at data i _ aces start_pos); [done..|].
  rewrite le_int_2. lia.
Qed.

End acl_more.

(** ** The further properties on the sample buffers *)

(** Flag bytes 0x11 and 0x31 give the same flags. *)
Lemma ace_flags_named_bits_witness :
  ACE.from_binary (PyBytes inherited_ace_bytes) = OK inherited_ace ∧
  ACE.from_binary (PyBytes stray_flag_ace_bytes) = OK inherited_ace ∧
  inherited_ace_bytes !! 1%nat = Some x11 ∧
  stray_flag_ace_bytes !! 1%nat = Some x31 ∧
  (ACE.flags inherited_ace = ACE.flags inherited_ace
   ↔ Z.land (byte_val x11) named_flag_bits = Z.land (byte_val x31) named_flag_bits) ∧
  (ACE.flags inherited_ace = ∅ ↔ Z.land (byte_val x11) named_flag_bits = 0).
Proof.
  do 4 (split; [reflexivity|]).
  apply (ace_flags_named_bits inherited_ace_bytes stray_flag_ace_bytes x11 x31
           inherited_ace inherited_ace); reflexivity.
Defined.

(** The object entry with both GUIDs: 44 bytes before the trustee, 56 in the
    buffer. *)
Lemma ace_decoded_bounds_witness :
  ACE.from_binary (PyBytes object_ace_bytes) = OK object_ace ∧
  0 ≤ ACE.mask object_ace < 2 ^ 32 ∧
  0 ≤ ACE.size object_ace < 2 ^ 16 ∧
  trustee_offset object_ace ≤ Z.of_nat (length object_ace_bytes).
Proof.
  split; [reflexivity|].
  apply (ace_decoded_bounds object_ace_bytes object_ace). reflexivity.
Defined.

(** A callback entry of declared size 0: the payload is present and empty. *)
Lemma ace_payload_length_witness :
  ACE.from_binary (PyBytes callback_zero_size_ace_bytes) = OK callback_zero_size_ace ∧
  ACE.application_data callback_zero_size_ace = Some [] ∧
  Z.of_nat (length (@nil byte))
  = Z.max 0 (Z.min (ACE.size callback_zero_size_ace)
               (Z.of_nat (length callback_zero_size_ace_bytes))
             - payload_offset callback_zero_size_ace) ∧
  (ACE.size callback_zero_size_ace ≤ payload_offset callback_zero_size_ace → [] = @nil byte).
Proof.
  do 2 (split; [reflexivity|]).
  apply (ace_payload_length callback_zero_size_ace_bytes [] callback_zero_size_ace);
    reflexivity.
Defined.

(** Object flags 3 followed by 20 bytes. *)
Lemma ace_guid_truncated_witness :
  ACEType_value ACCESS_ALLOWED_OBJECT = byte_val x05 ∧
  ACCESS_ALLOWED_OBJECT ∈ object_family ∧
  3 = byte_val x03 + 2 ^ 8 * byte_val x00 + 2 ^ 16 * byte_val x00 + 2 ^ 24 * byte_val x00 ∧
  Z.of_nat (length (drop 12 object_ace_truncated_bytes))
  < (if Z.testbit 3 0 then 16 else 0) + (if Z.testbit 3 1 then 16 else 0) ∧
  ACE.from_binary (S:=SID.t) (PyBytes object_ace_truncated_bytes) = Raise guid_error.
Proof.
  assert (ACCESS_ALLOWED_OBJECT ∈ object_family) as Hty.
  { apply list_elem_of_In. simpl. tauto. }
  split; [reflexivity|]. split; [exact Hty|]. split; [reflexivity|].
  split; [reflexivity|].
  apply (ace_guid_truncated (S:=SID.t) x05 x00 x38 x00 x00 x00 x01 x00 x03 x00 x00 x00
           (drop 12 object_ace_truncated_bytes) ACCESS_ALLOWED_OBJECT 3);
    [reflexivity|exact Hty|reflexivity|reflexivity].
Defined.

(** The failure on type code 99 is a [ValueError]. *)
Lemma from_binary_failure_kind_witness :
  (ACE.from_binary (S:=SID.t) (PyBytes unknown_type_bytes)
   = Raise (Exn ValueError "99 is not a valid ACEType")
   ∨ ACL.from_binary (S:=SID.t) (PyBytes unknown_type_bytes)
     = Raise (Exn ValueError "99 is not a valid ACEType")) ∧
  (exn_kind (Exn ValueError "99 is not a valid ACEType") = ValueError ∨
   (exn_kind (Exn ValueError "99 is not a valid ACEType") ≠ StructError ∧
    ∃ d, SID_bytes_le (S:=SID.t) d = Raise (Exn ValueError "99 is not a valid ACEType"))).
Proof.
  assert (ACE.from_binary (S:=SID.t) (PyBytes unknown_type_bytes)
          = Raise (Exn ValueError "99 is not a valid ACEType")) as Hfail by reflexivity.
  split; [left; exact Hfail|].
  apply (from_binary_failure_kind (S:=SID.t) unknown_type_bytes). left. exact Hfail.
Defined.

(** The header of the two-entry ACL. *)
Lemma acl_decoded_header_witness :
  ACL.from_binary (PyBytes acl_two_entries_bytes) = OK acl_two_entries ∧
  ∃ r s1 z0 z1 c0 c1 y0 y1 rest,
    acl_two_entries_bytes = r :: s1 :: z0 :: z1 :: c0 :: c1 :: y0 :: y1 :: rest ∧
    ACLRevision_value (ACL.revision acl_two_entries) = byte_val r ∧
    (byte_val r = 2 ∨ byte_val r = 4) ∧
    ACL.sbz1 acl_two_entries = byte_val s1 ∧
    ACL.size acl_two_entries = byte_val z0 + 256 * byte_val z1 ∧
    Z.of_nat (length (ACL.aces acl_two_entries)) = byte_val c0 + 256 * byte_val c1 ∧
    ACL.sbz2 acl_two_entries = byte_val y0 + 256 * byte_val y1.
Proof.
  split; [reflexivity|].
  apply (acl_decoded_header acl_two_entries_bytes acl_two_entries). reflexivity.
Defined.

(** The second entry of the two-entry ACL is decoded at offset 8 + 20. *)
Lemma acl_entries_at_offsets_witness :
  ACL.from_binary (PyBytes acl_two_entries_bytes) = OK acl_two_entries ∧
  ACL.aces acl_two_entries !! 1%nat = Some allowed_callback_ace ∧
  ACE.from_binary
    (PyBytes (drop (Z.to_nat (8 + sizes_sum (take 1 (ACL.aces acl_two_entries))))
                acl_two_entries_bytes)) = OK allowed_callback_ace.
Proof.
  do 2 (split; [reflexivity|]).
  apply (acl_entries_at_offsets acl_two_entries_bytes acl_two_entries 1 allowed_callback_ace);
    reflexivity.
Defined.

(** The empty buffer. *)
Lemma acl_short_header_witness :
  (length (@nil byte) < 8)%nat ∧
  ACL.from_binary (S:=SID.t) (PyBytes []) = Raise malformed_acl.
Proof.
  split; [simpl; lia|]. apply (acl_short_header (S:=SID.t) []). simpl; lia.
Defined.

(** Revision byte 1 with one entry that decodes. *)
Lemma acl_unknown_revision_witness :
  (∀ rev, ACLRevision_value rev ≠ byte_val x01) ∧
  loop_reaches acl_bad_revision_bytes 1 ([] ++ [allowed_ace]) (8 + ACE.size allowed_ace) ∧
  (∀ acl : ACL.t SID.t, ACL.from_binary (PyBytes acl_bad_revision_bytes) ≠ OK acl) ∧
  ACL.from_binary (S:=SID.t) (PyBytes acl_bad_revision_bytes)
  = Raise (Exn ValueError "1 is not a valid ACLRevision").
Proof.
  assert (∀ rev, ACLRevision_value rev ≠ byte_val x01) as Hunknown.
  { intros []; discriminate. }
  assert (loop_reaches acl_bad_revision_bytes 1 ([] ++ [allowed_ace])
            (8 + ACE.size allowed_ace)) as Hloop.
  { apply loop_next; [apply loop_start|reflexivity]. }
  split; [exact Hunknown|]. split; [exact Hloop|].
  destruct (acl_unknown_revision (S:=SID.t) x01 x00 x1c x00 x01 x00 x00 x00
              allowed_ace_bytes acl_bad_revision_bytes eq_refl Hunknown)
    as [Hnever Hafter].
  split; [exact Hnever|]. exact (Hafter _ _ Hloop).
Defined.

(** Other size and reserved bytes in front of the same two entries. *)
Lemma acl_header_unchecked_witness :
  ACL.from_binary (PyBytes acl_two_entries_bytes) = OK acl_two_entries ∧
  ACL.from_binary (PyBytes acl_two_entries_odd_header_bytes)
  = OK (ACL.mk (ACL.revision acl_two_entries) (byte_val x7f)
          (byte_val xee + 256 * byte_val xee) (ACL.aces acl_two_entries)
          (byte_val xff + 256 * byte_val xff)).
Proof.
  split; [reflexivity|].
  apply (acl_header_unchecked x04 x00 x34 x00 x02 x00 x00 x00 x7f xff xff xee xee
           (allowed_ace_bytes ++ allowed_callback_ace_bytes) acl_two_entries).
  reflexivity.
Defined.

(** Two entries declared, one present: the cursor is at the end of the buffer
    after the first. *)
Lemma acl_truncated_witness :
  Z.of_nat 1 < byte_val x02 + 256 * byte_val x00 ∧
  loop_reaches acl_truncated_bytes 1 ([] ++ [allowed_ace]) (8 + ACE.size allowed_ace) ∧
  Z.of_nat (length acl_truncated_bytes) < 8 + ACE.size allowed_ace + 8 ∧
  ACL.from_binary (S:=SID.t) (PyBytes acl_truncated_bytes) = Raise malformed_ace.
Proof.
  assert (loop_reaches acl_truncated_bytes 1 ([] ++ [allowed_ace])
            (8 + ACE.size allowed_ace)) as Hloop.
  { apply loop_next; [apply loop_start|reflexivity]. }
  split; [reflexivity|]. split; [exact Hloop|]. split; [reflexivity|].
  apply (acl_truncated x02 x00 x1c x00 x02 x00 x00 x00 allowed_ace_bytes
           acl_truncated_bytes 1 ([] ++ [allowed_ace]) (8 + ACE.size allowed_ace));
    [reflexivity|reflexivity|exact Hloop|reflexivity].
Defined.
